(** * Webhook delivery queue of the PWA component system

    A shallow embedding of [plugins/webhook-plugin.js] (class
    [WebhookPlugin]) and of the part of [db/database-service.js] (class
    [DatabaseService]) it calls, followed by the properties of the delivery
    queue: fan-out, send-and-record, retry with exponential backoff, request
    signing, and the SQL statements handed to the store.

    The JavaScript is asynchronous but single threaded.  A method body runs
    without interruption up to its next [await]; the only suspension point
    that matters is the [fetch] inside [sendWebhook].  The world below keeps
    the attempt whose [fetch] is pending in [inflight], and the settling of
    that [fetch] is an event of its own. *)

From stdpp Require Import base strings pretty list gmap.
From Stdlib Require Import ZArith Strings.Byte Strings.Ascii.

Set Warnings "-register-all".
Open Scope Z_scope.

(** ** Values *)

(** Structured data as [JSON.stringify] and the event payloads see it. *)
Inductive Json :=
| JNull
| JBool (b : bool)
| JNum (z : Z)
| JStr (s : string)
| JArr (items : list Json)
| JObj (fields : list (string * Json)).

(** A value bound to a [?] placeholder or stored in a column.  SQLite columns
    are dynamically typed.  [SqlJson j] is the TEXT value
    [JSON.stringify(j)], kept in parsed form: the code writes the JSON
    columns with [JSON.stringify] and reads them back with [JSON.parse]. *)
Inductive SqlValue :=
| SqlNull
| SqlInt (z : Z)
| SqlText (s : string)
| SqlJson (j : Json).

(** JavaScript truthiness of the values that the code tests with [if] or
    [||]. *)
Definition truthy_string (s : string) : bool := negb (String.eqb s "").

Definition truthy_json (j : Json) : bool :=
  match j with
  | JNull => false
  | JBool b => b
  | JNum z => negb (z =? 0)
  | JStr s => truthy_string s
  | JArr _ | JObj _ => true
  end.

(** ** The platform

    Browser primitives that the code calls and that are no code of the
    repository. *)
Class Platform := {
  JSON_stringify : Json → string;
  TextEncoder_encode : string → list byte;
  (** [crypto.subtle.sign('HMAC', key, data)] with hash SHA-256 *)
  hmac_sha256 : list byte → list byte → list byte;
  (** [new Date(t).toISOString()] *)
  toISOString : Z → string;
  (** the [n]-th string that the [Math.random] template of [generateUUID]
      produces *)
  random_uuid : nat → string;
}.

(** A platform to run the scenarios on: the control flow of the queue does
    not depend on what the primitives compute. *)
Definition demo_stringify (j : Json) : string :=
  match j with
  | JStr s => s
  | JNum z => pretty z
  | JBool true => "true"
  | JBool false => "false"
  | JNull => "null"
  | JArr _ => "[array]"
  | JObj _ => "{object}"
  end.

Definition demo_platform : Platform := {|
  JSON_stringify := demo_stringify;
  TextEncoder_encode := String.list_byte_of_string;
  hmac_sha256 := λ key data, take 32 (key ++ data ++ replicate 32 x00);
  toISOString := λ t, pretty t;
  random_uuid := λ n, "uuid-" +:+ pretty n;
|}.

(** ** Rows, attempts and requests *)

(** A row of table [webhooks], after the [JSON.parse] of its [headers] and
    [events] columns ([hook.headers || '{}'], [hook.events || '[]']: a NULL
    column reads as the empty object or array). *)
Record Webhook := {
  wh_id : string;
  wh_name : string;
  wh_url : string;
  wh_method : string;
  wh_headers : gmap string string;
  wh_secret : option string;
  wh_active : bool;
  wh_retry_count : Z;
  wh_timeout : Z;
  wh_events : list string;
}.

(** A row of table [webhook_deliveries]; the columns in the order of the
    INSERT of [logWebhookDelivery]. *)
Record Delivery := {
  dl_id : SqlValue;
  create_date : SqlValue;
  webhook_id : SqlValue;
  event_type : SqlValue;
  dl_payload : SqlValue;
  response_status : SqlValue;
  response_body : SqlValue;
  success : SqlValue;
  retry_count : SqlValue;
  error_message : SqlValue;
  duration_ms : SqlValue;
}.

(** A queue item: [{ webhook, eventType, payload, retries, timestamp }].
    [test] and [retryDelivery] build items without [timestamp]. *)
Record Item := {
  webhook : Webhook;
  eventType : string;
  payload : Json;
  retries : Z;
  timestamp : option Z;
}.

(** The arguments of one [fetch] call. *)
Record Request := {
  req_url : string;
  req_method : string;
  req_headers : gmap string string;
  req_body : string;
  req_timeout_ms : Z;
}.

(** How a [fetch] settles: a response (whose body is then read with
    [response.text()]), or a rejection (network error, or the abort raised by
    [AbortSignal.timeout]). *)
Inductive FetchOutcome :=
| Responded (status : Z) (body : string)
| Rejected (message : string).

(** What the environment decides about one send. *)
Record Exchange := {
  outcome : FetchOutcome;
  latency : Z;
}.

(** [response.ok] *)
Definition response_ok (status : Z) : bool :=
  (200 <=? status) && (status <=? 299).

(** ** The world *)

Record World := {
  (** fields of the [WebhookPlugin] instance *)
  queue : list Item;
  processing : bool;
  (** event loop: the attempt whose [fetch] the drain loop awaits, and the
      pending [setTimeout] callbacks with the delay they were given *)
  inflight : option Item;
  timers : list (Z * Item);
  clock : Z;
  (** the database behind [DatabaseService] *)
  webhooks : list Webhook;
  webhook_deliveries : list Delivery;
  (** every statement handed to the SQL engine, oldest first *)
  sql_trace : list (string * list SqlValue);
  (** what the engine does with the coming write statements: [Some msg]
      makes [db.run] throw an error with that message; an exhausted script
      means the engine accepts *)
  write_faults : list (option string);
  uuids_drawn : nat;
  (** the requests given to [fetch], oldest first *)
  outbox : list Request;
}.

Definition set_queue (q : list Item) (w : World) : World :=
  {| queue := q; processing := processing w; inflight := inflight w;
     timers := timers w; clock := clock w; webhooks := webhooks w;
     webhook_deliveries := webhook_deliveries w; sql_trace := sql_trace w;
     write_faults := write_faults w; uuids_drawn := uuids_drawn w;
     outbox := outbox w |}.

Definition set_processing (b : bool) (w : World) : World :=
  {| queue := queue w; processing := b; inflight := inflight w;
     timers := timers w; clock := clock w; webhooks := webhooks w;
     webhook_deliveries := webhook_deliveries w; sql_trace := sql_trace w;
     write_faults := write_faults w; uuids_drawn := uuids_drawn w;
     outbox := outbox w |}.

Definition set_inflight (i : option Item) (w : World) : World :=
  {| queue := queue w; processing := processing w; inflight := i;
     timers := timers w; clock := clock w; webhooks := webhooks w;
     webhook_deliveries := webhook_deliveries w; sql_trace := sql_trace w;
     write_faults := write_faults w; uuids_drawn := uuids_drawn w;
     outbox := outbox w |}.

Definition set_timers (t : list (Z * Item)) (w : World) : World :=
  {| queue := queue w; processing := processing w; inflight := inflight w;
     timers := t; clock := clock w; webhooks := webhooks w;
     webhook_deliveries := webhook_deliveries w; sql_trace := sql_trace w;
     write_faults := write_faults w; uuids_drawn := uuids_drawn w;
     outbox := outbox w |}.

Definition set_clock (c : Z) (w : World) : World :=
  {| queue := queue w; processing := processing w; inflight := inflight w;
     timers := timers w; clock := c; webhooks := webhooks w;
     webhook_deliveries := webhook_deliveries w; sql_trace := sql_trace w;
     write_faults := write_faults w; uuids_drawn := uuids_drawn w;
     outbox := outbox w |}.

Definition set_webhooks (t : list Webhook) (w : World) : World :=
  {| queue := queue w; processing := processing w; inflight := inflight w;
     timers := timers w; clock := clock w; webhooks := t;
     webhook_deliveries := webhook_deliveries w; sql_trace := sql_trace w;
     write_faults := write_faults w; uuids_drawn := uuids_drawn w;
     outbox := outbox w |}.

Definition set_webhook_deliveries (t : list Delivery) (w : World) : World :=
  {| queue := queue w; processing := processing w; inflight := inflight w;
     timers := timers w; clock := clock w; webhooks := webhooks w;
     webhook_deliveries := t; sql_trace := sql_trace w;
     write_faults := write_faults w; uuids_drawn := uuids_drawn w;
     outbox := outbox w |}.

Definition set_sql_trace (t : list (string * list SqlValue)) (w : World) : World :=
  {| queue := queue w; processing := processing w; inflight := inflight w;
     timers := timers w; clock := clock w; webhooks := webhooks w;
     webhook_deliveries := webhook_deliveries w; sql_trace := t;
     write_faults := write_faults w; uuids_drawn := uuids_drawn w;
     outbox := outbox w |}.

Definition set_write_faults (f : list (option string)) (w : World) : World :=
  {| queue := queue w; processing := processing w; inflight := inflight w;
     timers := timers w; clock := clock w; webhooks := webhooks w;
     webhook_deliveries := webhook_deliveries w; sql_trace := sql_trace w;
     write_faults := f; uuids_drawn := uuids_drawn w;
     outbox := outbox w |}.

Definition set_uuids_drawn (n : nat) (w : World) : World :=
  {| queue := queue w; processing := processing w; inflight := inflight w;
     timers := timers w; clock := clock w; webhooks := webhooks w;
     webhook_deliveries := webhook_deliveries w; sql_trace := sql_trace w;
     write_faults := write_faults w; uuids_drawn := n;
     outbox := outbox w |}.

Definition set_outbox (o : list Request) (w : World) : World :=
  {| queue := queue w; processing := processing w; inflight := inflight w;
     timers := timers w; clock := clock w; webhooks := webhooks w;
     webhook_deliveries := webhook_deliveries w; sql_trace := sql_trace w;
     write_faults := write_faults w; uuids_drawn := uuids_drawn w;
     outbox := o |}.

(** ** Computations: state and exceptions

    A method either returns a value or throws an [Error], whose [message] is
    all the code ever reads; either way it leaves a world behind. *)
Inductive Completion (A : Type) :=
| Return (a : A)
| Throw (message : string).
Arguments Return {A} a.
Arguments Throw {A} message.

Definition M (A : Type) : Type := World → Completion A * World.

Global Instance M_ret : MRet M := λ A a w, (Return a, w).

Global Instance M_bind : MBind M := λ A B f m w,
  match m w with
  | (Return a, w') => f a w'
  | (Throw e, w') => (Throw e, w')
  end.

Definition throw {A} (message : string) : M A := λ w, (Throw message, w).

(** [try { body } catch (error) { handler }] *)
Definition try_catch {A} (body : M A) (handler : string → M A) : M A := λ w,
  match body w with
  | (Return a, w') => (Return a, w')
  | (Throw e, w') => handler e w'
  end.

Definition get {A} (f : World → A) : M A := λ w, (Return (f w), w).
Definition modify (f : World → World) : M unit := λ w, (Return (), f w).

(** The world a computation leaves behind, and whether it threw. *)
Definition after {A} (m : M A) (w : World) : World := (m w).2.
Definition throws {A} (m : M A) (w : World) : bool :=
  match (m w).1 with Throw _ => true | Return _ => false end.

(** Output that no property reads: [console.error], and the [loggingPlugin]
    calls.  [LoggingPlugin.log] wraps its own store write in
    [try { dbService.log(...) } catch (error) { console.error(...) }], so a
    log call never throws into its caller; its rows go to table [logs]. *)
Definition console_error (message : string) : M unit := mret ().
Definition loggingPlugin_debug (message : string) : M unit := mret ().
Definition loggingPlugin_info (message : string) : M unit := mret ().
Definition loggingPlugin_error (message : string) : M unit := mret ().

(** [performance.now()], [Date.now()] and [new Date().toISOString()] read
    the clock. *)
Definition performance_now : M Z := get clock.
Definition Date_now : M Z := get clock.
Definition Date_toISOString `{Platform} : M string := get (λ w, toISOString (clock w)).

(** [setTimeout(callback, delay)], for the one callback of the code,
    [() => this.queue.push(item)]. *)
Definition setTimeout (item : Item) (delay : Z) : M unit :=
  modify (λ w, set_timers (timers w ++ [(delay, item)]) w).

(** [await fetch(url, init)] followed by [await response.text()]: the request
    leaves, time passes, and the exchange settles as the environment
    decides. *)
Definition fetch (request : Request) (x : Exchange) : M (Z * string) := λ w,
  let w := set_clock (clock w + latency x) (set_outbox (outbox w ++ [request]) w) in
  match outcome x with
  | Responded status body => (Return (status, body), w)
  | Rejected message => (Throw message, w)
  end.

(** ** DatabaseService *)

Module DatabaseService.

(** The statement texts, up to the layout of the template literals. *)
Definition SQL_INSERT_WEBHOOK : string :=
  "INSERT INTO webhooks (id, create_date, name, url, method, headers, secret, active, retry_count, timeout, events, metadata) VALUES (?, ?, ?, ?, ?, ?, ?, 1, ?, ?, ?, ?)".

Definition SQL_SELECT_ACTIVE_WEBHOOKS : string :=
  "SELECT * FROM webhooks WHERE active = 1".

Definition SQL_INSERT_DELIVERY : string :=
  "INSERT INTO webhook_deliveries (id, create_date, webhook_id, event_type, payload, response_status, response_body, success, retry_count, error_message, duration_ms) VALUES (?, ?, ?, ?, ?, ?, ?, ?, ?, ?, ?)".

(** Statements of the plugin itself that the engine below interprets. *)
Definition SQL_SELECT_WEBHOOK_BY_ID : string :=
  "SELECT * FROM webhooks WHERE id = ?".

Definition SQL_DEACTIVATE_WEBHOOK : string :=
  "UPDATE webhooks SET active = 0 WHERE id = ?".

(** *** The SQL engine ([this.db], an sql.js database)

    The engine is modelled for the constant statements above: the two
    INSERTs bind their parameters to the columns in order, the soft delete
    clears [active].  Any other text (the UPDATE that [WebhookPlugin.update]
    assembles) is recorded in the trace and leaves the modelled tables as
    they are. *)

Definition headers_of_json (j : Json) : gmap string string :=
  match j with
  | JObj fields =>
      list_to_map (omap (λ kv, match kv.2 with JStr s => Some (kv.1, s) | _ => None end) fields)
  | _ => ∅
  end.

Definition events_of_json (j : Json) : list string :=
  match j with
  | JArr items => omap (λ i, match i with JStr s => Some s | _ => None end) items
  | _ => []
  end.

Definition webhook_of_params (params : list SqlValue) : option Webhook :=
  match params with
  | [SqlText id; _; SqlText name; SqlText url; SqlText method; SqlJson headers;
     secret; SqlInt retry_count; SqlInt timeout; SqlJson events; _] =>
      Some {| wh_id := id; wh_name := name; wh_url := url; wh_method := method;
              wh_headers := headers_of_json headers;
              wh_secret := match secret with SqlText s => Some s | _ => None end;
              wh_active := true;
              wh_retry_count := retry_count; wh_timeout := timeout;
              wh_events := events_of_json events |}
  | _ => None
  end.

Definition delivery_of_params (params : list SqlValue) : option Delivery :=
  match params with
  | [id; now; webhookId; eventType; payload; status; body; success; retryCount;
     error; duration] =>
      Some {| dl_id := id; create_date := now; webhook_id := webhookId;
              event_type := eventType; dl_payload := payload;
              response_status := status; response_body := body;
              success := success; retry_count := retryCount;
              error_message := error; duration_ms := duration |}
  | _ => None
  end.

Definition deactivate (id : string) (hook : Webhook) : Webhook :=
  if String.eqb (wh_id hook) id then
    {| wh_id := wh_id hook; wh_name := wh_name hook; wh_url := wh_url hook;
       wh_method := wh_method hook; wh_headers := wh_headers hook;
       wh_secret := wh_secret hook; wh_active := false;
       wh_retry_count := wh_retry_count hook; wh_timeout := wh_timeout hook;
       wh_events := wh_events hook |}
  else hook.

Definition apply_write (sql : string) (params : list SqlValue) (w : World) : World :=
  if String.eqb sql SQL_INSERT_DELIVERY then
    match delivery_of_params params with
    | Some row => set_webhook_deliveries (webhook_deliveries w ++ [row]) w
    | None => w
    end
  else if String.eqb sql SQL_INSERT_WEBHOOK then
    match webhook_of_params params with
    | Some row => set_webhooks (webhooks w ++ [row]) w
    | None => w
    end
  else if String.eqb sql SQL_DEACTIVATE_WEBHOOK then
    match params with
    | [SqlText id] => set_webhooks (deactivate id <$> webhooks w) w
    | _ => w
    end
  else w.

(** [this.db.run(sql, params)]: throws when the fault script says so. *)
Definition db_run (sql : string) (params : list SqlValue) : M unit := λ w,
  let w := set_sql_trace (sql_trace w ++ [(sql, params)]) w in
  match write_faults w with
  | Some message :: rest => (Throw message, set_write_faults rest w)
  | None :: rest => (Return (), apply_write sql params (set_write_faults rest w))
  | [] => (Return (), apply_write sql params w)
  end.

(** [this.db.exec(sql, params)] for the two SELECTs on [webhooks]. *)
Definition db_exec (sql : string) (params : list SqlValue) : M (list Webhook) := λ w,
  let rows :=
    if String.eqb sql SQL_SELECT_ACTIVE_WEBHOOKS then
      filter (λ hook, wh_active hook = true) (webhooks w)
    else if String.eqb sql SQL_SELECT_WEBHOOK_BY_ID then
      match params with
      | [SqlText id] => filter (λ hook, wh_id hook = id) (webhooks w)
      | _ => []
      end
    else [] in
  (Return rows, set_sql_trace (sql_trace w ++ [(sql, params)]) w).

(** [saveToIndexedDB] is async and [run] does not await it: a failed save is
    a rejected promise that nothing observes, never an exception of [run]. *)
Definition saveToIndexedDB : M unit := mret ().

Section Methods.
Context {P : Platform}.

Definition generateUUID : M string := λ w,
  (Return (random_uuid (uuids_drawn w)), set_uuids_drawn (S (uuids_drawn w)) w).

Definition getTimestamp : M string := Date_toISOString.

Definition exec (sql : string) (params : list SqlValue) : M (list Webhook) :=
  try_catch (db_exec sql params)
    (λ error, console_error "SQL execution error:";; throw error).

Definition run (sql : string) (params : list SqlValue) : M unit :=
  try_catch (db_run sql params;; saveToIndexedDB)
    (λ error, console_error "SQL run error:";; throw error).

Definition getOne (sql : string) (params : list SqlValue) : M (option Webhook) :=
  results ← exec sql params;
  mret (head results).

Definition getAll (sql : string) (params : list SqlValue) : M (list Webhook) :=
  exec sql params.

(** The argument of [createWebhook]; [None] is a property left
    [undefined], which is where the destructuring defaults apply. *)
Record WebhookData := {
  wd_name : string;
  wd_url : string;
  wd_method : option string;
  wd_headers : option (gmap string string);
  wd_secret : option string;
  wd_events : option (list string);
  wd_retry_count : option Z;
  wd_timeout : option Z;
  wd_metadata : option Json;
}.

Definition json_of_headers (headers : gmap string string) : Json :=
  JObj ((λ kv, (kv.1, JStr kv.2)) <$> map_to_list headers).

Definition json_of_events (events : list string) : Json :=
  JArr (JStr <$> events).

Definition createWebhook (webhookData : WebhookData) : M string :=
  id ← generateUUID;
  now ← getTimestamp;
  let name := wd_name webhookData in
  let url := wd_url webhookData in
  let method := default "POST" (wd_method webhookData) in
  let headers := default ∅ (wd_headers webhookData) in
  let secret := wd_secret webhookData in
  let events := default [] (wd_events webhookData) in
  let retry_count := default 3 (wd_retry_count webhookData) in
  let timeout := default 30 (wd_timeout webhookData) in
  let metadata := wd_metadata webhookData in
  run SQL_INSERT_WEBHOOK
    [SqlText id; SqlText now; SqlText name; SqlText url; SqlText method;
     SqlJson (json_of_headers headers);
     from_option SqlText SqlNull secret; SqlInt retry_count; SqlInt timeout;
     SqlJson (json_of_events events);
     match metadata with
     | Some m => if truthy_json m then SqlJson m else SqlNull
     | None => SqlNull
     end];;
  mret id.

(** [events.includes(eventType) || events.includes('*')] *)
Definition subscribed (eventType : string) (hook : Webhook) : bool :=
  bool_decide (eventType ∈ wh_events hook) || bool_decide ("*" ∈ wh_events hook).

Definition getWebhooksForEvent (eventType : string) : M (list Webhook) :=
  webhooks ← getAll SQL_SELECT_ACTIVE_WEBHOOKS [];
  mret (filter (λ hook, subscribed eventType hook = true) webhooks).

(** The [response] argument of [logWebhookDelivery]; [None] is a property
    that is [null] or left out. *)
Record DeliveryOutcome := {
  status : option Z;
  body : option string;
  do_success : bool;
  retryCount : Z;
  error : option string;
  duration : option Z;
}.

Definition logWebhookDelivery (webhookId eventType : string) (payload : Json)
    (response : DeliveryOutcome) : M string :=
  id ← generateUUID;
  now ← getTimestamp;
  run SQL_INSERT_DELIVERY
    [SqlText id; SqlText now; SqlText webhookId; SqlText eventType;
     SqlJson payload;
     from_option SqlInt SqlNull (status response);
     from_option SqlText SqlNull (body response);
     SqlInt (if do_success response then 1 else 0);
     SqlInt (retryCount response);
     from_option SqlText SqlNull (error response);
     from_option SqlInt SqlNull (duration response)];;
  mret id.

(** [this.db.exec(sql, params)] for the SELECT on [webhook_deliveries] that
    [retryDelivery] issues. *)
Definition SQL_SELECT_DELIVERY_BY_ID : string :=
  "SELECT * FROM webhook_deliveries WHERE id = ?".

Definition has_id (id : string) (row : Delivery) : bool :=
  match dl_id row with
  | SqlText s => String.eqb s id
  | _ => false
  end.

Definition db_exec_deliveries (sql : string) (params : list SqlValue)
    : M (list Delivery) := λ w,
  let rows :=
    if String.eqb sql SQL_SELECT_DELIVERY_BY_ID then
      match params with
      | [SqlText id] => filter (λ row, has_id id row = true) (webhook_deliveries w)
      | _ => []
      end
    else [] in
  (Return rows, set_sql_trace (sql_trace w ++ [(sql, params)]) w).

Definition exec_deliveries (sql : string) (params : list SqlValue) : M (list Delivery) :=
  try_catch (db_exec_deliveries sql params)
    (λ error, console_error "SQL execution error:";; throw error).

Definition getOne_delivery (sql : string) (params : list SqlValue) : M (option Delivery) :=
  results ← exec_deliveries sql params;
  mret (head results).
End Methods.

End DatabaseService.


(** ** WebhookPlugin *)

Module WebhookPlugin.

(** [this.retryDelay = 5000], set in the constructor and never assigned
    again. *)
Definition retryDelay : Z := 5000.

(** [b.toString(16).padStart(2, '0')] for a byte [b]. *)
Definition hex_digit (n : N) : ascii :=
  default "0"%char (String.get (N.to_nat n) "0123456789abcdef").

Definition toString16 (n : N) : string :=
  if (n <? 16)%N then String (hex_digit n) ""
  else String (hex_digit (n / 16)) (String (hex_digit (n mod 16)) "").

Definition padStart2 (s : string) : string :=
  if (String.length s <? 2)%nat then "0" +:+ s else s.

Definition hex (bytes : list byte) : string :=
  String.concat "" ((λ b, padStart2 (toString16 (Byte.to_N b))) <$> bytes).

(** The SQL text that [update] assembles from the keys of its argument. *)
Definition setClause (keys : list string) : string :=
  String.concat ", " ((λ key, key +:+ " = ?") <$> keys).

(** A property value of the [updates] object: [typeof v === 'object'] or
    not. *)
Inductive JsValue :=
| JsObject (j : Json)
| JsPrimitive (v : SqlValue).

Definition SQL_DELIVERY_HISTORY : string :=
  "SELECT * FROM webhook_deliveries WHERE webhook_id = ? ORDER BY create_date DESC LIMIT ?".

Definition SQL_STATISTICS : string :=
  "SELECT COUNT(*) as total, SUM(CASE WHEN success = 1 THEN 1 ELSE 0 END) as successful, SUM(CASE WHEN success = 0 THEN 1 ELSE 0 END) as failed, AVG(duration_ms) as avg_duration, MIN(duration_ms) as min_duration, MAX(duration_ms) as max_duration FROM webhook_deliveries".

(** The loop of [processQueue], from the test of [while] up to the [await]
    of the next send, or to the end of the method. *)
Definition drain (w : World) : World :=
  match queue w with
  | item :: rest => set_inflight (Some item) (set_queue rest w)
  | [] => set_inflight None (set_processing false w)
  end.

(** [processQueue] is async: the caller gets a promise at once and never an
    exception. *)
Definition processQueue : M unit := λ w,
  if processing w || bool_decide (length (queue w) = 0%nat) then (Return (), w)
  else (Return (), drain (set_processing true w)).

(** The callback of the [setInterval] of [startQueueProcessor]. *)
Definition tick : M unit :=
  processing ← get processing;
  length ← get (λ w, length (queue w));
  if negb processing && bool_decide (0 < length)%nat then processQueue else mret ().

(** A [setTimeout] callback runs: [this.queue.push(item)]. *)
Definition fire (n : nat) (w : World) : World :=
  match timers w !! n with
  | Some (_, item) => set_queue (queue w ++ [item]) (set_timers (delete n (timers w)) w)
  | None => w
  end.

Section Methods.
Context {P : Platform}.

Definition register (webhookData : DatabaseService.WebhookData) : M string :=
  id ← DatabaseService.createWebhook webhookData;
  loggingPlugin_info "Webhook registered";;
  mret id.

Definition update (webhookId : string) (updates : list (string * JsValue)) : M unit :=
  let kept := filter (λ kv, kv.1 ∉ ["id"; "create_date"]) updates in
  let values :=
    ((λ kv, match kv.2 with JsObject j => SqlJson j | JsPrimitive v => v end) <$> kept)
    ++ [SqlText webhookId] in
  DatabaseService.run
    ("UPDATE webhooks SET " +:+ setClause (kept.*1) +:+ " WHERE id = ?") values;;
  loggingPlugin_info "Webhook updated".

Definition delete (webhookId : string) : M unit :=
  DatabaseService.run DatabaseService.SQL_DEACTIVATE_WEBHOOK [SqlText webhookId];;
  loggingPlugin_info "Webhook deleted".

(** The statement that [getDeliveryHistory] hands to [getAll]. *)
Definition getDeliveryHistory_query (webhookId : string) (limit : option Z)
    : string * list SqlValue :=
  (SQL_DELIVERY_HISTORY, [SqlText webhookId; SqlInt (default 50 limit)]).

(** The statement that [getStatistics] hands to [getOne]. *)
Definition getStatistics_query (webhookId : option string) : string * list SqlValue :=
  match webhookId with
  | Some id =>
      if truthy_string id then (SQL_STATISTICS +:+ " WHERE webhook_id = ?", [SqlText id])
      else (SQL_STATISTICS, [])
  | None => (SQL_STATISTICS, [])
  end.

Definition generateSignature (payload : Json) (secret : string) : string :=
  let data := TextEncoder_encode (JSON_stringify payload) in
  let key := TextEncoder_encode secret in
  let signature := hmac_sha256 key data in
  hex signature.

(** The headers of the request, in the order the code builds them. *)
Definition buildHeaders (item : Item) : gmap string string :=
  let headers := wh_headers (webhook item) ∪ {[ "Content-Type" := "application/json" ]} in
  let headers :=
    match wh_secret (webhook item) with
    | Some secret =>
        if truthy_string secret then
          <[ "X-Webhook-Signature" := generateSignature (payload item) secret ]> headers
        else headers
    | None => headers
    end in
  <[ "X-Event-Type" := eventType item ]> headers.

(** The arguments of the [fetch] call of [sendWebhook]. *)
Definition request (item : Item) : Request :=
  {| req_url := wh_url (webhook item); req_method := wh_method (webhook item);
     req_headers := buildHeaders item; req_body := JSON_stringify (payload item);
     req_timeout_ms := wh_timeout (webhook item) * 1000 |}.

Definition http_error (status : Z) (responseBody : string) : string :=
  "HTTP " +:+ pretty status +:+ ": " +:+ responseBody.

Definition retried (item : Item) : Item :=
  {| webhook := webhook item; eventType := eventType item; payload := payload item;
     retries := retries item + 1; timestamp := timestamp item |}.

Definition sendWebhook (item : Item) (x : Exchange) : M unit :=
  let webhook := webhook item in
  let eventType := eventType item in
  let payload := payload item in
  let retries := retries item in
  startTime ← performance_now;
  try_catch
    (response ← fetch (request item) x;
     now ← performance_now;
     let duration := now - startTime in
     let '(status, responseBody) := response in
     DatabaseService.logWebhookDelivery (wh_id webhook) eventType payload
       {| DatabaseService.status := Some status;
          DatabaseService.body := Some responseBody;
          DatabaseService.do_success := response_ok status;
          DatabaseService.retryCount := retries;
          DatabaseService.error := None;
          DatabaseService.duration := Some duration |};;
     if response_ok status then loggingPlugin_info "Webhook sent successfully"
     else throw (http_error status responseBody))
    (λ error,
     now ← performance_now;
     let duration := now - startTime in
     loggingPlugin_error "Webhook failed";;
     DatabaseService.logWebhookDelivery (wh_id webhook) eventType payload
       {| DatabaseService.status := None;
          DatabaseService.body := None;
          DatabaseService.do_success := false;
          DatabaseService.retryCount := retries;
          DatabaseService.error := Some error;
          DatabaseService.duration := Some duration |};;
     if bool_decide (retries < wh_retry_count webhook) then
       loggingPlugin_info "Scheduling webhook retry";;
       setTimeout (retried item) (retryDelay * 2 ^ retries)
     else mret ()).

Definition trigger (eventType : string) (payload : Json) : M unit :=
  webhooks ← DatabaseService.getWebhooksForEvent eventType;
  if bool_decide (length webhooks = 0%nat) then
    loggingPlugin_debug "No webhooks found for event"
  else
    loggingPlugin_info "Triggering webhook(s) for event";;
    now ← Date_now;
    modify (λ w, set_queue
      (queue w ++ ((λ webhook, {| webhook := webhook; eventType := eventType;
                                  payload := payload; retries := 0;
                                  timestamp := Some now |}) <$> webhooks)) w);;
    processing ← get processing;
    if negb processing then processQueue else mret ().

(** The [fetch] that the drain loop awaits settles: the rest of
    [sendWebhook] runs, then the loop goes on.  When [sendWebhook] throws,
    the promise of [processQueue] is rejected and the rest of the method,
    [this.processing = false] included, never runs. *)
Definition settle (x : Exchange) (w : World) : World :=
  match inflight w with
  | Some item =>
      match sendWebhook item x (set_inflight None w) with
      | (Return _, w') => drain w'
      | (Throw _, w') => w'
      end
  | None => w
  end.

Definition test (webhookId : string) (testPayload : Json) (x : Exchange) : M unit :=
  webhook ← DatabaseService.getOne DatabaseService.SQL_SELECT_WEBHOOK_BY_ID [SqlText webhookId];
  match webhook with
  | None => throw "Webhook not found"
  | Some webhook =>
      now ← Date_toISOString;
      let payload :=
        if truthy_json testPayload then testPayload
        else JObj [("test", JBool true); ("timestamp", JStr now);
                   ("message", JStr "This is a test webhook")] in
      sendWebhook {| webhook := webhook; eventType := "test"; payload := payload;
                     retries := 0; timestamp := None |} x
  end.

(** What can happen next in the page. *)
Inductive Event :=
| Trigger (eventType : string) (payload : Json)
| Tick
| Fire (n : nat)
| Settle (x : Exchange)
| ProcessQueue.

Definition step (w : World) (ev : Event) : World :=
  match ev with
  | Trigger eventType payload => after (trigger eventType payload) w
  | Tick => after tick w
  | Fire n => fire n w
  | Settle x => settle x w
  | ProcessQueue => after processQueue w
  end.

Definition run_events (evs : list Event) (w : World) : World :=
  foldl step w evs.

(** [getAll]: the active subscriptions, JSON columns parsed. *)
Definition getAll : M (list Webhook) :=
  DatabaseService.getAll DatabaseService.SQL_SELECT_ACTIVE_WEBHOOKS [].

(** The attempt that [retryDelivery] rebuilds from a stored record and the
    current row of its subscription.  The columns have the kinds that the
    INSERT of [logWebhookDelivery], the only writer of the table, binds:
    text for the event type, the JSON text of the payload, an integer for
    the retry count.  No statement of the code writes a row of another
    shape; for such a row the model has no attempt. *)
Definition attempt_of_delivery (hook : Webhook) (delivery : Delivery) : option Item :=
  match event_type delivery, dl_payload delivery, retry_count delivery with
  | SqlText eventType, SqlJson payload, SqlInt retries =>
      Some {| webhook := hook; eventType := eventType; payload := payload;
              retries := retries; timestamp := None |}
  | _, _, _ => None
  end.

Definition retryDelivery (deliveryId : string) (x : Exchange) : M unit :=
  delivery ← DatabaseService.getOne_delivery
                DatabaseService.SQL_SELECT_DELIVERY_BY_ID [SqlText deliveryId];
  match delivery with
  | None => throw "Delivery not found"
  | Some delivery =>
      webhook ← DatabaseService.getOne DatabaseService.SQL_SELECT_WEBHOOK_BY_ID
                  [webhook_id delivery];
      match webhook with
      | None => throw "Webhook not found"
      | Some webhook =>
          match attempt_of_delivery webhook delivery with
          | Some item => sendWebhook item x
          | None => throw "TypeError"
          end
      end
  end.
End Methods.

End WebhookPlugin.


(** ** Observations and scenarios *)

(** The attempts that wait for the drain loop or are in its hands, in the
    order they are sent. *)
Definition pending (w : World) : list Item := option_list (inflight w) ++ queue w.

(** A drain loop that awaits a [fetch] has set [processing]. *)
Definition consistent (w : World) : bool :=
  match inflight w with
  | Some _ => processing w
  | None => true
  end.

(** A send that did not get a 2xx response: another status, or no response
    at all. *)
Definition failed (o : FetchOutcome) : bool :=
  match o with
  | Responded status _ => negb (response_ok status)
  | Rejected _ => true
  end.

(** The engine accepts the next [n] write statements. *)
Definition accepts (n : nat) (w : World) : bool :=
  forallb (λ fault, match fault with None => true | Some _ => false end)
    (take n (write_faults w)).

(** The attempt that [trigger] pushes for a subscription. *)
Definition attempt (now : Z) (eventType : string) (payload : Json) (hook : Webhook) : Item :=
  {| webhook := hook; eventType := eventType; payload := payload; retries := 0;
     timestamp := Some now |}.

(** The attempt that [test] sends. *)
Definition probe (now : string) (testPayload : Json) (hook : Webhook) : Item :=
  {| webhook := hook; eventType := "test";
     payload := if truthy_json testPayload then testPayload
                else JObj [("test", JBool true); ("timestamp", JStr now);
                           ("message", JStr "This is a test webhook")];
     retries := 0; timestamp := None |}.

Definition empty_world : World :=
  {| queue := []; processing := false; inflight := None; timers := []; clock := 0;
     webhooks := []; webhook_deliveries := []; sql_trace := []; write_faults := [];
     uuids_drawn := 0; outbox := [] |}.

(** The subscription of the scenarios:
    [{url: 'https://example.test/hook', retry_count, timeout: 5}] subscribed
    to [events]. *)
Definition example_hook (events : list string) (retry_count : Z) : DatabaseService.WebhookData :=
  {| DatabaseService.wd_name := "example";
     DatabaseService.wd_url := "https://example.test/hook";
     DatabaseService.wd_method := None;
     DatabaseService.wd_headers := None;
     DatabaseService.wd_secret := None;
     DatabaseService.wd_events := Some events;
     DatabaseService.wd_retry_count := Some retry_count;
     DatabaseService.wd_timeout := Some 5;
     DatabaseService.wd_metadata := None |}.

Definition registered (events : list string) (retry_count : Z) : World :=
  after (WebhookPlugin.register (P:=demo_platform) (example_hook events retry_count))
    empty_world.

Definition example_row (events : list string) (retry_count : Z) : Webhook :=
  {| wh_id := "uuid-0"; wh_name := "example"; wh_url := "https://example.test/hook";
     wh_method := "POST"; wh_headers := ∅; wh_secret := None; wh_active := true;
     wh_retry_count := retry_count; wh_timeout := 5; wh_events := events |}.

Definition u1 : Json := JObj [("id", JStr "u1")].

Definition http (status : Z) : Exchange :=
  {| outcome := Responded status "body"; latency := 40 |}.

Definition unreachable : Exchange :=
  {| outcome := Rejected "Failed to fetch"; latency := 40 |}.

(** What the statistics and the history show of a delivery record. *)
Definition summary (d : Delivery) : SqlValue * SqlValue * SqlValue :=
  (success d, retry_count d, response_status d).


(** The events of a page in which the subscription is registered for
    ["user.registered"], the event is triggered once, and every retry timer
    fires before the next interval tick. *)
Definition delivery_run (retry_count : Z) (script : list WebhookPlugin.Event) : World :=
  WebhookPlugin.run_events (P:=demo_platform)
    (WebhookPlugin.Trigger "user.registered" u1 :: script)
    (registered ["user.registered"] retry_count).

Definition next_send (x : Exchange) : list WebhookPlugin.Event :=
  [WebhookPlugin.Fire 0; WebhookPlugin.Tick; WebhookPlugin.Settle x].

(** The same page with a store that refuses the next write. *)
Definition refusing (message : string) (w : World) : World :=
  set_write_faults [Some message] w.

Definition first_attempt (retry_count : Z) : Item :=
  attempt 0 "user.registered" u1 (example_row ["user.registered"] retry_count).

Definition refused_run (message : string) (retry_count : Z)
    (script : list WebhookPlugin.Event) : World :=
  WebhookPlugin.run_events (P:=demo_platform)
    (WebhookPlugin.Trigger "user.registered" u1 :: script)
    (refusing message (registered ["user.registered"] retry_count)).

(** A subscription that signs its requests. *)
Definition signed_attempt : Item :=
  attempt 0 "user.registered" u1
    {| wh_id := "uuid-0"; wh_name := "example"; wh_url := "https://example.test/hook";
       wh_method := "POST"; wh_headers := {[ "X-Webhook-Signature" := "forged" ]};
       wh_secret := Some "s3cret"; wh_active := true; wh_retry_count := 2;
       wh_timeout := 5; wh_events := ["user.registered"] |}.

(** Every attempt that is still to be sent: pending, or held by a retry
    timer. *)
Definition lineages (w : World) : list Item := pending w ++ (timers w).*2.

(** The counter of an attempt within the retry count of its subscription. *)
Definition bounded (item : Item) : Prop :=
  0 ≤ retries item ≤ wh_retry_count (webhook item).

(** ** More observations *)

(** The sends that an attempt can still cause: the one ahead of it, and one
    for every retry left. *)
Definition sends_left (item : Item) : nat :=
  Z.to_nat (Z.max 1 (wh_retry_count (webhook item) - retries item + 1)).

Definition budget (w : World) : nat := sum_list (sends_left <$> lineages w).

Definition is_trigger (ev : WebhookPlugin.Event) : bool :=
  match ev with
  | WebhookPlugin.Trigger _ _ => true
  | _ => false
  end.

(** What one byte contributes to [hex]. *)
Definition hex_of_byte (b : byte) : string :=
  WebhookPlugin.padStart2 (WebhookPlugin.toString16 (Byte.to_N b)).

Definition is_hex_digit (c : ascii) : bool :=
  bool_decide (c ∈ String.list_ascii_of_string "0123456789abcdef").

(** The number of occurrences of a character, to count placeholders. *)
Fixpoint count_char (c : ascii) (s : string) : nat :=
  match s with
  | EmptyString => 0
  | String c' s' => (if Ascii.eqb c c' then 1 else 0) + count_char c s'
  end.

(** [generateUUID] with its random draws spelled out:
    ['xxxxxxxx-xxxx-4xxx-yxxx-xxxxxxxxxxxx'.replace(/[xy]/g, c => ...)], where
    the callback draws [r = Math.random() * 16 | 0] at each match and returns
    [(c === 'x' ? r : (r & 0x3 | 0x8)).toString(16)].  [draw n] is the value
    of [r] at the match number [n]. *)
Fixpoint replace_xy (draw : nat → N) (n : nat) (template : string) : string :=
  match template with
  | EmptyString => EmptyString
  | String c rest =>
      if Ascii.eqb c "x" then
        WebhookPlugin.toString16 (draw n) +:+ replace_xy draw (S n) rest
      else if Ascii.eqb c "y" then
        WebhookPlugin.toString16 (N.lor (N.land (draw n) 3) 8)
          +:+ replace_xy draw (S n) rest
      else String c (replace_xy draw n rest)
  end.

Definition generateUUID_of_draws (draw : nat → N) : string :=
  replace_xy draw 0 "xxxxxxxx-xxxx-4xxx-yxxx-xxxxxxxxxxxx".

(** The reading of a hex signature back into bytes, as a receiver that
    checks the [X-Webhook-Signature] header does it. *)
Definition hex_digit_value (c : ascii) : option N :=
  let n := N_of_ascii c in
  if (48 <=? n)%N && (n <=? 57)%N then Some (n - 48)%N
  else if (97 <=? n)%N && (n <=? 102)%N then Some (n - 87)%N
  else None.

Fixpoint unhex (s : string) : option (list byte) :=
  match s with
  | EmptyString => Some []
  | String c1 (String c2 rest) =>
      hi ← hex_digit_value c1;
      lo ← hex_digit_value c2;
      b ← Byte.of_N (16 * hi + lo);
      bytes ← unhex rest;
      Some (b :: bytes)
  | String _ EmptyString => None
  end.

(** ** Scenarios for the rest of the code *)

(** Two attempts for the subscription: one in the hands of the drain loop,
    one queued behind it. *)
Definition two_pending : World :=
  delivery_run 2 [WebhookPlugin.Trigger "user.registered" u1].

(** The page after the first send was answered HTTP 500, and the first of
    the two records of that send. *)
Definition after_failure : World :=
  delivery_run 2 [WebhookPlugin.Settle (http 500)].

Definition stored_failure : Delivery :=
  {| dl_id := SqlText "uuid-1"; create_date := SqlText "40";
     webhook_id := SqlText "uuid-0"; event_type := SqlText "user.registered";
     dl_payload := SqlJson u1; response_status := SqlInt 500;
     response_body := SqlText "body"; success := SqlInt 0; retry_count := SqlInt 0;
     error_message := SqlNull; duration_ms := SqlInt 40 |}.

Definition redelivered : Item :=
  {| webhook := example_row ["user.registered"] 2; eventType := "user.registered";
     payload := u1; retries := 0; timestamp := None |}.

(** The same page after the subscription rows were removed from the
    table. *)
Definition orphaned : World := set_webhooks [] after_failure.

Definition sevens (n : nat) : N := 7%N.

Definition careless_update : list (string * WebhookPlugin.JsValue) :=
  [("id", WebhookPlugin.JsPrimitive (SqlText "uuid-9"));
   ("url", WebhookPlugin.JsPrimitive (SqlText "https://example.test/v2"));
   ("headers", WebhookPlugin.JsObject (JObj []))].

Definition retry_storm : list WebhookPlugin.Event :=
  WebhookPlugin.Settle (http 500) :: next_send (http 500) ++ next_send (http 500)
    ++ next_send (http 500) ++ next_send (http 500).

(** * Properties *)

Section Properties.
Context {P : Platform}.
Import WebhookPlugin.

(** ** Running the monadic code *)

Lemma apply_write_delivery a b c d e f g h i j k w :
  DatabaseService.apply_write DatabaseService.SQL_INSERT_DELIVERY
    [a; b; c; d; e; f; g; h; i; j; k] w =
  set_webhook_deliveries
    (webhook_deliveries w ++
       [{| dl_id := a; create_date := b; webhook_id := c; event_type := d;
           dl_payload := e; response_status := f; response_body := g;
           success := h; retry_count := i; error_message := j;
           duration_ms := k |}]) w.
Proof. reflexivity. Qed.

Ltac run_m :=
  unfold after, throws, sendWebhook, setTimeout, loggingPlugin_info,
    loggingPlugin_error, loggingPlugin_debug, console_error, performance_now,
    Date_now, fetch, DatabaseService.logWebhookDelivery, DatabaseService.run,
    DatabaseService.db_run, DatabaseService.generateUUID,
    DatabaseService.getTimestamp, Date_toISOString,
    DatabaseService.saveToIndexedDB, try_catch,
    throw, get, modify, mbind, M_bind, mret, M_ret;
  cbn; rewrite ?apply_write_delivery; cbn.

(** All the ways one send can go: the exchange, the fault script of the two
    writes it may issue, the status class, and the retry test. *)
Ltac send_cases w x :=
  let fl := fresh "faults" in
  destruct w as [? ? ? ? ? ? ? ? fl ? ?];
  destruct x as [[?status ?body|?message] ?lat];
  destruct fl as [|[?|] [|[?|] ?]];
  run_m;
  try (match goal with |- context [response_ok ?s] =>
         destruct (response_ok s) eqn:?; run_m end);
  try case_bool_decide; run_m.

(** ** One send *)

Lemma sendWebhook_frame (item : Item) (x : Exchange) (w : World) :
  let w' := after (sendWebhook item x) w in
  queue w' = queue w ∧ processing w' = processing w ∧ inflight w' = inflight w ∧
  webhooks w' = webhooks w ∧ outbox w' = outbox w ++ [request item].
Proof. send_cases w x; auto. Qed.

Lemma sendWebhook_timers (item : Item) (x : Exchange) (w : World) :
  let w' := after (sendWebhook item x) w in
  timers w' = timers w ∨
  (throws (sendWebhook item x) w = false ∧
   retries item < wh_retry_count (webhook item) ∧
   timers w' = timers w ++ [(retryDelay * 2 ^ retries item, retried item)]).
Proof. send_cases w x; auto. Qed.

Lemma sendWebhook_retry (item : Item) (x : Exchange) (w : World) :
  failed (outcome x) = true →
  retries item < wh_retry_count (webhook item) →
  throws (sendWebhook item x) w = false →
  timers (after (sendWebhook item x) w) =
  timers w ++ [(retryDelay * 2 ^ retries item, retried item)].
Proof.
  send_cases w x; cbn; intros Hf Hlt Hth; try done.
  all: rewrite ?Heqb in Hf; try done.
Qed.

Lemma sendWebhook_no_retry (item : Item) (x : Exchange) (w : World) :
  ¬ retries item < wh_retry_count (webhook item) →
  timers (after (sendWebhook item x) w) = timers w.
Proof.
  intros Hge. destruct (sendWebhook_timers item x w) as [Heq | (_ & Hlt & _)];
    [exact Heq | contradiction].
Qed.

Lemma sendWebhook_thrown (item : Item) (x : Exchange) (w : World) :
  throws (sendWebhook item x) w = true →
  timers (after (sendWebhook item x) w) = timers w.
Proof.
  intros Hth. destruct (sendWebhook_timers item x w) as [Heq | (Hret & _)];
    [exact Heq | congruence].
Qed.

(** The rows that a send adds carry the counter of the attempt. *)
Lemma sendWebhook_rows (item : Item) (x : Exchange) (w : World) :
  ∃ rows,
    webhook_deliveries (after (sendWebhook item x) w) = webhook_deliveries w ++ rows ∧
    (length rows ≤ 2)%nat ∧
    Forall (λ r, retry_count r = SqlInt (retries item) ∧
                 webhook_id r = SqlText (wh_id (webhook item)) ∧
                 event_type r = SqlText (eventType item)) rows.
Proof.
  send_cases w x;
    first [ exists []; split; [by rewrite app_nil_r|]
          | eexists [_]; split; [reflexivity|]
          | eexists [_; _]; split; [by rewrite <- app_assoc|] ];
    split; cbn; try lia; repeat constructor.
Qed.

(** A response outside 200..299 is recorded twice when the store accepts the
    writes: after the response, and again in the [catch] block that the
    [throw] of the [else] branch reaches. *)
Lemma sendWebhook_non_2xx_rows (item : Item) (x : Exchange) (w : World)
    (status : Z) (body : string) :
  outcome x = Responded status body →
  response_ok status = false →
  accepts 2 w = true →
  ∃ r1 r2,
    webhook_deliveries (after (sendWebhook item x) w) = webhook_deliveries w ++ [r1; r2] ∧
    response_status r1 = SqlInt status ∧ success r1 = SqlInt 0 ∧
    response_status r2 = SqlNull ∧ success r2 = SqlInt 0 ∧
    error_message r2 = SqlText (http_error status body).
Proof.
  intros Ho Hr Ha. destruct x as [o lat]; cbn in Ho; subst o.
  destruct w as [? ? ? ? ? ? ? ? fl ? ?].
  destruct fl as [|[?|] [|[?|] ?]]; try done.
  all: run_m; rewrite Hr; run_m; try case_bool_decide; run_m.
  all: do 2 eexists; split; [by rewrite <- app_assoc|done].
Qed.

(** A write that the engine refuses in the [catch] block leaves the send. *)
Lemma sendWebhook_rejected_refused (item : Item) (x : Exchange) (w : World)
    (reason message : string) (rest : list (option string)) :
  outcome x = Rejected reason →
  write_faults w = Some message :: rest →
  throws (sendWebhook item x) w = true ∧
  webhook_deliveries (after (sendWebhook item x) w) = webhook_deliveries w.
Proof.
  destruct w as [? ? ? ? ? ? ? ? fl ? ?], x as [o l]; cbn.
  intros -> ->. by run_m.
Qed.

(** ** The trigger *)

Lemma trigger_world (eventType : string) (payload : Json) (w : World) :
  after (trigger eventType payload) w =
  let w1 := set_sql_trace
              (sql_trace w ++ [(DatabaseService.SQL_SELECT_ACTIVE_WEBHOOKS, [])]) w in
  let hooks := filter (λ hook, DatabaseService.subscribed eventType hook = true)
                 (filter (λ hook, wh_active hook = true) (webhooks w)) in
  match hooks with
  | [] => w1
  | _ =>
      let w2 := set_queue (queue w ++ (attempt (clock w) eventType payload <$> hooks)) w1 in
      if processing w then w2 else drain (set_processing true w2)
  end.
Proof.
  unfold after, trigger, DatabaseService.getWebhooksForEvent, DatabaseService.getAll,
    DatabaseService.exec, DatabaseService.db_exec, processQueue, try_catch,
    loggingPlugin_debug, loggingPlugin_info, Date_now, get, modify,
    mbind, M_bind, mret, M_ret.
  cbn.
  destruct (filter _ (filter _ (webhooks w))) as [|hook hooks] eqn:Hhooks; cbn; [done|].
  rewrite bool_decide_false by lia. cbn.
  destruct (processing w) eqn:Hp; cbn; [done|].
  rewrite length_app. cbn. rewrite bool_decide_false by lia. rewrite Hp. done.
Qed.

Lemma subscribed_spec (eventType : string) (hook : Webhook) :
  DatabaseService.subscribed eventType hook = true ↔
  eventType ∈ wh_events hook ∨ "*" ∈ wh_events hook.
Proof.
  unfold DatabaseService.subscribed.
  rewrite orb_true_iff, !bool_decide_eq_true. done.
Qed.

Lemma pending_drain (w : World) : pending (drain w) = queue w.
Proof. unfold drain, pending. destruct (queue w) eqn:Hq; cbn; by rewrite ?Hq. Qed.

Lemma trigger_pending (eventType : string) (payload : Json) (w : World) :
  consistent w = true →
  pending (after (trigger eventType payload) w) =
  pending w ++
    (attempt (clock w) eventType payload <$>
       filter (λ hook, DatabaseService.subscribed eventType hook = true)
         (filter (λ hook, wh_active hook = true) (webhooks w))) ∧
  timers (after (trigger eventType payload) w) = timers w ∧
  webhooks (after (trigger eventType payload) w) = webhooks w.
Proof.
  intros Hc. rewrite trigger_world. cbn zeta.
  destruct (filter _ (filter _ (webhooks w))) as [|hook hooks];
    [by rewrite app_nil_r|].
  destruct (processing w) eqn:Hproc.
  - unfold pending. cbn. by rewrite app_assoc.
  - rewrite pending_drain. unfold consistent in Hc. unfold pending, drain.
    destruct (inflight w); [congruence|]. cbn.
    repeat split; by destruct (queue w ++ _).
Qed.

(** C7. A trigger enqueues one attempt for every subscription that is active
    at that moment and whose event set holds the event name or the wildcard
    ["*"], in the order of the table and behind the attempts already
    pending; so their number is the number of those subscriptions, and a
    wildcard subscription gets its attempt whatever the event name is. *)
Theorem C7_trigger_fans_out_to_matching_subscriptions
    (eventType : string) (payload : Json) (w : World) :
  consistent w = true →
  let w' := after (trigger eventType payload) w in
  let matching :=
    filter (λ hook, wh_active hook = true ∧
                    (eventType ∈ wh_events hook ∨ "*" ∈ wh_events hook)) (webhooks w) in
  pending w' = pending w ++ (attempt (clock w) eventType payload <$> matching) ∧
  length (pending w') = (length (pending w) + length matching)%nat ∧
  (∀ hook, hook ∈ webhooks w → wh_active hook = true → wh_events hook = ["*"] →
           attempt (clock w) eventType payload hook ∈ pending w').
Proof.
  intros Hc w' matching.
  assert (Hm : filter (λ hook, DatabaseService.subscribed eventType hook = true)
                 (filter (λ hook, wh_active hook = true) (webhooks w)) = matching).
  { rewrite list_filter_filter. apply list_filter_iff. intros hook.
    rewrite subscribed_spec. tauto. }
  assert (Hp : pending w' = pending w ++ (attempt (clock w) eventType payload <$> matching)).
  { subst w'. rewrite <- Hm. by apply trigger_pending. }
  split; [exact Hp|]. split.
  - rewrite Hp, length_app, length_fmap. done.
  - intros hook Hin Hact Hev. rewrite Hp. apply elem_of_app. right.
    apply list_elem_of_fmap. exists hook. split; [done|].
    apply list_elem_of_filter. split; [|done]. split; [done|].
    right. rewrite Hev. set_solver.
Qed.

(** ** A drain pass that dies *)

Lemma step_wedged (w : World) (ev : Event) :
  processing w = true → inflight w = None →
  processing (step w ev) = true ∧ inflight (step w ev) = None ∧
  queue w `prefix_of` queue (step w ev) ∧
  outbox (step w ev) = outbox w ∧
  webhook_deliveries (step w ev) = webhook_deliveries w.
Proof.
  intros Hp Hi. destruct ev as [eventType payload | | n | x |]; unfold step.
  - rewrite trigger_world. cbn zeta.
    destruct (filter _ (filter _ (webhooks w))) as [|hook hooks]; [done|].
    rewrite Hp. cbn. repeat split; try done. by apply prefix_app_r.
  - unfold after, tick, get, mbind, M_bind, mret, M_ret. cbn. by rewrite Hp.
  - unfold fire. destruct (timers w !! n) as [[delay item]|]; [|done].
    cbn. repeat split; try done. by apply prefix_app_r.
  - unfold settle. by rewrite Hi.
  - unfold after, processQueue. by rewrite Hp.
Qed.

Lemma run_events_wedged (evs : list Event) (w : World) :
  processing w = true → inflight w = None →
  processing (run_events evs w) = true ∧ inflight (run_events evs w) = None ∧
  queue w `prefix_of` queue (run_events evs w) ∧
  outbox (run_events evs w) = outbox w ∧
  webhook_deliveries (run_events evs w) = webhook_deliveries w.
Proof.
  revert w. induction evs as [|ev evs IH]; intros w Hp Hi; [done|].
  destruct (step_wedged w ev Hp Hi) as (Hp' & Hi' & Hq & Ho & Hd).
  destruct (IH (step w ev) Hp' Hi') as (? & ? & Hq' & Ho' & Hd').
  change (run_events (ev :: evs) w) with (run_events evs (step w ev)).
  repeat split; try done.
  - by etrans.
  - by rewrite Ho'.
  - by rewrite Hd'.
Qed.

(** C3. When [sendWebhook] throws inside a drain pass, [processQueue] ends
    with [processing] still set and no loop behind it.  From then on no
    interval tick, no trigger, no timer callback and no call of
    [processQueue] starts a pass: the flag stays set, nothing is taken from
    the queue (attempts are only ever added behind those that remain), no
    request leaves and no delivery record is written. *)
Theorem C3_throwing_send_wedges_the_queue (item : Item) (x : Exchange) (w : World) :
  processing w = true →
  inflight w = Some item →
  throws (sendWebhook item x) (set_inflight None w) = true →
  let w1 := settle x w in
  processing w1 = true ∧ inflight w1 = None ∧ queue w1 = queue w ∧
  ∀ evs : list Event,
    let w2 := run_events evs w1 in
    processing w2 = true ∧ inflight w2 = None ∧
    queue w1 `prefix_of` queue w2 ∧
    outbox w2 = outbox w1 ∧
    webhook_deliveries w2 = webhook_deliveries w1.
Proof.
  intros Hp Hi Hth w1.
  assert (Hw1 : processing w1 = true ∧ inflight w1 = None ∧ queue w1 = queue w).
  { subst w1. unfold settle. rewrite Hi.
    destruct (sendWebhook_frame item x (set_inflight None w)) as (Hq' & Hp' & Hi' & _).
    unfold throws in Hth. unfold after in Hq', Hp', Hi'.
    destruct (sendWebhook item x (set_inflight None w)) as [[[]|message] w']; [done|].
    cbn in Hq', Hp', Hi'. rewrite Hq', Hp', Hi'. done. }
  destruct Hw1 as (Hp1 & Hi1 & Hq1). repeat split; try done.
  all: by destruct (run_events_wedged evs w1 Hp1 Hi1) as (? & ? & ? & ? & ?).
Qed.

(** ** Backoff *)

Lemma fire_pushes_back (w : World) (n : nat) (delay : Z) (item : Item) :
  timers w !! n = Some (delay, item) →
  queue (fire n w) = queue w ++ [item] ∧ timers (fire n w) = base.delete n (timers w).
Proof. intros Ht. unfold fire. by rewrite Ht. Qed.

Lemma retry_delay_increasing (j k : Z) :
  1 ≤ j → j < k → retryDelay * 2 ^ (j - 1) < retryDelay * 2 ^ (k - 1).
Proof.
  intros Hj Hjk. unfold retryDelay.
  apply Z.mul_lt_mono_pos_l; [lia|].
  apply Z.pow_lt_mono_r; lia.
Qed.

(** C6. A failed send whose counter [k - 1] is below the maximum of the
    subscription asks for one timer whose delay is [5000 * 2 ^ (k - 1)]
    milliseconds; the delays grow strictly with [k]; the callback holds the
    attempt with counter [k], leaves the queue alone until it runs, and then
    pushes the attempt at the back of the queue. *)
Theorem C6_retry_delay_doubles_and_reenters_at_back
    (item : Item) (x : Exchange) (w : World) :
  failed (outcome x) = true →
  0 ≤ retries item < wh_retry_count (webhook item) →
  throws (sendWebhook item x) w = false →
  let k := retries item + 1 in
  let w' := after (sendWebhook item x) w in
  retryDelay = 5000 ∧
  timers w' = timers w ++ [(5000 * 2 ^ (k - 1), retried item)] ∧
  retries (retried item) = k ∧
  webhook (retried item) = webhook item ∧
  (∀ i j : Z, 1 ≤ i → i < j → 5000 * 2 ^ (i - 1) < 5000 * 2 ^ (j - 1)) ∧
  queue w' = queue w ∧
  ∀ (w0 : World) (n : nat) (delay : Z) (it : Item),
    timers w0 !! n = Some (delay, it) → queue (fire n w0) = queue w0 ++ [it].
Proof.
  intros Hf [H0 Hlt] Hth k w'. split; [done|]. split.
  { subst w' k. rewrite (sendWebhook_retry item x w Hf Hlt Hth).
    by replace (retries item + 1 - 1) with (retries item) by lia. }
  repeat split; try done.
  - intros i j Hi Hij. by apply (retry_delay_increasing i j).
  - by destruct (sendWebhook_frame item x w) as (? & _).
  - intros w0 n delay it Ht. by destruct (fire_pushes_back w0 n delay it Ht).
Qed.

(** ** Success and failure records *)



(** ** The signed request *)



(** ** The test operation *)

Lemma test_is_send (webhookId : string) (testPayload : Json) (x : Exchange)
    (w : World) (hook : Webhook) :
  head (filter (λ h, wh_id h = webhookId) (webhooks w)) = Some hook →
  test webhookId testPayload x w =
  sendWebhook (probe (toISOString (clock w)) testPayload hook) x
    (set_sql_trace
       (sql_trace w ++ [(DatabaseService.SQL_SELECT_WEBHOOK_BY_ID, [SqlText webhookId])]) w).
Proof.
  intros Hh.
  unfold test, DatabaseService.getOne, DatabaseService.exec, DatabaseService.db_exec,
    Date_toISOString, try_catch, get, mbind, M_bind, mret, M_ret.
  cbn. by rewrite Hh.
Qed.

(** C5 (as the code has it). [test] looks the subscription up by id and
    hands [sendWebhook] an attempt for it with event type "test" and retry
    counter 0, outside the queue; the send and its records are those of a
    normal delivery, retry included: a failed test send that completes
    schedules one retry after 5000 ms when the retry count of the
    subscription is positive, and none when it is not. *)
Theorem C5_test_sends_outside_queue_and_retries_like_delivery
    (webhookId : string) (testPayload : Json) (x : Exchange) (w : World) (hook : Webhook) :
  head (filter (λ h, wh_id h = webhookId) (webhooks w)) = Some hook →
  let item := probe (toISOString (clock w)) testPayload hook in
  let w1 := set_sql_trace
              (sql_trace w ++ [(DatabaseService.SQL_SELECT_WEBHOOK_BY_ID, [SqlText webhookId])]) w in
  let w' := after (test webhookId testPayload x) w in
  test webhookId testPayload x w = sendWebhook item x w1 ∧
  webhook item = hook ∧ retries item = 0 ∧
  queue w' = queue w ∧
  (failed (outcome x) = true → 0 < wh_retry_count hook →
   throws (test webhookId testPayload x) w = false →
   timers w' = timers w ++ [(5000, retried item)]) ∧
  (wh_retry_count hook ≤ 0 → timers w' = timers w).
Proof.
  intros Hh item w1 w'.
  pose proof (test_is_send webhookId testPayload x w hook Hh) as Ht.
  fold item w1 in Ht.
  split; [exact Ht|]. split; [done|]. split; [done|].
  subst w'. unfold after, throws. rewrite Ht.
  fold (after (sendWebhook item x) w1). fold (throws (sendWebhook item x) w1).
  split; [by destruct (sendWebhook_frame item x w1) as (? & _)|]. split.
  - intros Hf Hpos Hth.
    rewrite (sendWebhook_retry item x w1 Hf); [done| |done].
    cbn. lia.
  - intros Hle. rewrite (sendWebhook_no_retry item x w1); [done|]. cbn. lia.
Qed.

(** ** Statements handed to the store *)

Lemma apply_write_trace (sql : string) (params : list SqlValue) (w : World) :
  sql_trace (DatabaseService.apply_write sql params w) = sql_trace w.
Proof. unfold DatabaseService.apply_write. by repeat case_match. Qed.

Lemma update_statement (webhookId : string) (updates : list (string * JsValue)) (w : World) :
  let kept := filter (λ kv, kv.1 ∉ ["id"; "create_date"]) updates in
  sql_trace (after (update webhookId updates) w) =
  sql_trace w ++
    [("UPDATE webhooks SET " +:+ setClause (kept.*1) +:+ " WHERE id = ?",
      ((λ kv, match kv.2 with JsObject j => SqlJson j | JsPrimitive v => v end) <$> kept)
      ++ [SqlText webhookId])].
Proof.
  destruct w as [? ? ? ? ? ? ? ? fl ? ?].
  unfold after, update, DatabaseService.run, DatabaseService.db_run,
    DatabaseService.saveToIndexedDB, loggingPlugin_info, console_error, try_catch,
    throw, mbind, M_bind, mret, M_ret.
  cbn. destruct fl as [|[?|] ?]; cbn; by rewrite ?apply_write_trace.
Qed.

(** The operations other than [update] hand the engine texts that are
    constants of the code. *)
Lemma sendWebhook_statements (item : Item) (x : Exchange) (w : World) :
  ∃ stmts,
    sql_trace (after (sendWebhook item x) w) = sql_trace w ++ stmts ∧
    Forall (λ s, s.1 = DatabaseService.SQL_INSERT_DELIVERY) stmts.
Proof.
  send_cases w x;
    first [ eexists [_]; split; [reflexivity|]
          | eexists [_; _]; split; [by rewrite <- app_assoc|] ];
    repeat constructor.
Qed.

Lemma trigger_statement (eventType : string) (payload : Json) (w : World) :
  sql_trace (after (trigger eventType payload) w) =
  sql_trace w ++ [(DatabaseService.SQL_SELECT_ACTIVE_WEBHOOKS, [])].
Proof.
  rewrite trigger_world. cbn zeta.
  destruct (filter _ (filter _ (webhooks w))) as [|hook hooks]; [done|].
  destruct (processing w); [done|].
  unfold drain. cbn. by destruct (queue w ++ _).
Qed.

Lemma delete_statement (webhookId : string) (w : World) :
  sql_trace (after (WebhookPlugin.delete webhookId) w) =
  sql_trace w ++ [(DatabaseService.SQL_DEACTIVATE_WEBHOOK, [SqlText webhookId])].
Proof.
  destruct w as [? ? ? ? ? ? ? ? fl ? ?].
  unfold after, WebhookPlugin.delete, DatabaseService.run, DatabaseService.db_run,
    DatabaseService.saveToIndexedDB, loggingPlugin_info, console_error, try_catch,
    throw, mbind, M_bind, mret, M_ret.
  cbn. by destruct fl as [|[?|] ?].
Qed.

Lemma register_statement (webhookData : DatabaseService.WebhookData) (w : World) :
  ∃ params,
    sql_trace (after (register webhookData) w) =
    sql_trace w ++ [(DatabaseService.SQL_INSERT_WEBHOOK, params)].
Proof.
  destruct w as [? ? ? ? ? ? ? ? fl ? ?].
  unfold after, register, DatabaseService.createWebhook, DatabaseService.run,
    DatabaseService.db_run, DatabaseService.generateUUID, DatabaseService.getTimestamp,
    Date_toISOString, DatabaseService.saveToIndexedDB, loggingPlugin_info,
    console_error, try_catch, throw, get, mbind, M_bind, mret, M_ret.
  cbn. eexists. by destruct fl as [|[?|] ?].
Qed.

Lemma query_statements (webhookId : string) (limit : option Z) (filter : option string) :
  (getDeliveryHistory_query webhookId limit).1 = SQL_DELIVERY_HISTORY ∧
  ((getStatistics_query filter).1 = SQL_STATISTICS ∨
   (getStatistics_query filter).1 = SQL_STATISTICS +:+ " WHERE webhook_id = ?").
Proof.
  split; [done|]. unfold getStatistics_query.
  destruct filter as [id|]; [destruct (truthy_string id)|]; auto.
Qed.

(** ** The queue keeps its flag and its loop together *)

Lemma drain_consistent (w : World) :
  processing w = true → consistent (drain w) = true.
Proof. intros Hp. unfold drain, consistent. by destruct (queue w). Qed.

Lemma step_consistent (w : World) (ev : Event) :
  consistent w = true → consistent (step w ev) = true.
Proof.
  intros Hc. destruct ev as [eventType payload | | n | x |]; unfold step.
  - rewrite trigger_world. cbn zeta.
    destruct (filter _ (filter _ (webhooks w))) as [|hook hooks]; [done|].
    destruct (processing w) eqn:Hp; [done|]. by apply drain_consistent.
  - unfold after, tick, get, mbind, M_bind, mret, M_ret, processQueue. cbn.
    destruct (processing w) eqn:Hp; cbn; [done|].
    case_bool_decide; cbn; [|done].
    rewrite Hp. cbn. case_bool_decide; [done|]. by apply drain_consistent.
  - unfold fire. by destruct (timers w !! n) as [[delay item]|].
  - unfold settle. destruct (inflight w) as [item|] eqn:Hi; [|done].
    destruct (sendWebhook_frame item x (set_inflight None w)) as (_ & Hp' & Hi' & _).
    unfold after in Hp', Hi'. unfold consistent in Hc. rewrite Hi in Hc.
    destruct (sendWebhook item x (set_inflight None w)) as [[[]|message] w'];
      cbn in Hp', Hi'.
    + apply drain_consistent. by rewrite Hp'.
    + unfold consistent. by rewrite Hi'.
  - unfold after, processQueue.
    destruct (processing w) eqn:Hp; cbn; [done|].
    case_bool_decide; [done|]. by apply drain_consistent.
Qed.

Lemma run_events_consistent (evs : list Event) (w : World) :
  consistent w = true → consistent (run_events evs w) = true.
Proof.
  revert w. induction evs as [|ev evs IH]; intros w Hc; [done|].
  apply (IH (step w ev)). by apply step_consistent.
Qed.

(** ** Counters stay within the retry count *)

Lemma tick_world (w : World) :
  after tick w = w ∨
  (processing w = false ∧ after tick w = drain (set_processing true w)).
Proof.
  unfold after, tick, get, mbind, M_bind, mret, M_ret, processQueue. cbn.
  destruct (processing w) eqn:Hp; cbn; [by left|].
  case_bool_decide; cbn; [|by left].
  rewrite Hp. cbn. case_bool_decide; [by left|by right].
Qed.

Lemma processQueue_world (w : World) :
  after processQueue w = w ∨
  (processing w = false ∧ after processQueue w = drain (set_processing true w)).
Proof.
  unfold after, processQueue.
  destruct (processing w) eqn:Hp; cbn; [by left|].
  case_bool_decide; [by left|by right].
Qed.

Lemma lineages_start_drain (w : World) :
  consistent w = true → processing w = false →
  lineages (drain (set_processing true w)) = lineages w ∧
  webhooks (drain (set_processing true w)) = webhooks w.
Proof.
  intros Hc Hp. unfold lineages. rewrite pending_drain.
  unfold consistent in Hc. unfold pending, drain. cbn.
  destruct (inflight w); [congruence|].
  by destruct (queue w).
Qed.

Lemma retried_bounded (item : Item) :
  0 ≤ retries item → retries item < wh_retry_count (webhook item) →
  bounded (retried item).
Proof. unfold bounded. cbn. lia. Qed.

(** Along any run, the counter of every attempt stays between 0 and the
    retry count of its subscription, when no subscription has a negative
    retry count. *)
Lemma step_bounded (w : World) (ev : Event) :
  consistent w = true →
  Forall (λ hook, 0 ≤ wh_retry_count hook) (webhooks w) →
  Forall bounded (lineages w) →
  Forall bounded (lineages (step w ev)) ∧ webhooks (step w ev) = webhooks w.
Proof.
  intros Hc Hw Hb. destruct ev as [eventType payload | | n | x |]; unfold step.
  - destruct (trigger_pending eventType payload w Hc) as (Hp & Ht & Hwh).
    split; [|done]. unfold lineages. rewrite Hp, Ht, <- app_assoc.
    unfold lineages in Hb. apply Forall_app in Hb as [Hb1 Hb2].
    rewrite !Forall_app. repeat split; try done.
    apply Forall_fmap, Forall_forall. intros hook Hin.
    apply list_elem_of_filter in Hin as [_ Hin].
    apply list_elem_of_filter in Hin as [_ Hin].
    rewrite Forall_forall in Hw. specialize (Hw hook Hin).
    unfold bounded. cbn. lia.
  - destruct (tick_world w) as [-> | [Hp ->]]; [done|].
    destruct (lineages_start_drain w Hc Hp) as [-> ->]. done.
  - unfold fire. destruct (timers w !! n) as [[delay item]|] eqn:Ht; [|done].
    split; [|done]. unfold lineages, pending in *. cbn.
    apply Forall_forall. intros it Hin. rewrite Forall_forall in Hb. apply Hb.
    rewrite !elem_of_app in Hin. rewrite !elem_of_app.
    destruct Hin as [[Hin | [Hin | Hin]] | Hin]; auto.
    + apply list_elem_of_singleton in Hin as ->. right.
      apply list_elem_of_fmap. exists (delay, item). split; [done|].
      by apply list_elem_of_lookup_2 with n.
    + right. apply list_elem_of_fmap in Hin as (p & -> & Hin).
      apply list_elem_of_fmap. exists p. split; [done|].
      by apply list_elem_of_delete_inv with n.
  - unfold settle. destruct (inflight w) as [item|] eqn:Hi; [|done].
    assert (Hitem : bounded item ∧ Forall bounded (queue w ++ (timers w).*2)).
    { unfold lineages, pending in Hb. rewrite Hi in Hb. cbn in Hb.
      by apply Forall_cons in Hb. }
    destruct Hitem as [Hitem Hrest].
    destruct (sendWebhook_frame item x (set_inflight None w)) as (Hq & _ & Hi' & Hwh & _).
    pose proof (sendWebhook_timers item x (set_inflight None w)) as Ht.
    unfold after in Hq, Hi', Hwh, Ht.
    assert (Hl : Forall bounded
                   (queue (sendWebhook item x (set_inflight None w)).2 ++
                    (timers (sendWebhook item x (set_inflight None w)).2).*2)).
    { rewrite Hq. cbn.
      destruct Ht as [-> | (_ & Hlt & ->)]; cbn; [done|].
      rewrite fmap_app, app_assoc. apply Forall_app. split; [done|].
      cbn. apply Forall_singleton, retried_bounded; [apply Hitem | done]. }
    destruct (sendWebhook item x (set_inflight None w)) as [[[]|message] w'];
      cbn in *.
    + split.
      * unfold lineages. rewrite pending_drain.
        replace (timers (drain w')) with (timers w'); [done|].
        unfold drain. by destruct (queue w').
      * rewrite <- Hwh. unfold drain. by destruct (queue w').
    + split; [|done]. unfold lineages, pending. by rewrite Hi'.
  - destruct (processQueue_world w) as [-> | [Hp ->]]; [done|].
    destruct (lineages_start_drain w Hc Hp) as [-> ->]. done.
Qed.

Lemma run_events_bounded (evs : list Event) (w : World) :
  consistent w = true →
  Forall (λ hook, 0 ≤ wh_retry_count hook) (webhooks w) →
  Forall bounded (lineages w) →
  Forall bounded (lineages (run_events evs w)).
Proof.
  revert w. induction evs as [|ev evs IH]; intros w Hc Hw Hb; [done|].
  destruct (step_bounded w ev Hc Hw Hb) as [Hb' Hw'].
  apply (IH (step w ev)); [by apply step_consistent | by rewrite Hw' | done].
Qed.

(** The records of the send that the drain loop completes carry the counter
    of the attempt in its hands. *)
Lemma settle_rows (x : Exchange) (w : World) (item : Item) :
  inflight w = Some item →
  ∃ rows,
    webhook_deliveries (settle x w) = webhook_deliveries w ++ rows ∧
    Forall (λ r, retry_count r = SqlInt (retries item)) rows.
Proof.
  intros Hi. unfold settle. rewrite Hi.
  destruct (sendWebhook_rows item x (set_inflight None w)) as (rows & Hrows & _ & Hall).
  exists rows. split.
  - unfold after in Hrows.
    destruct (sendWebhook item x (set_inflight None w)) as [[[]|message] w'];
      cbn in Hrows; [|done].
    rewrite <- Hrows. unfold drain. by destruct (queue w').
  - eapply Forall_impl; [exact Hall|]. by intros r (? & _).
Qed.

(** [b.toString(16).padStart(2, '0')] on small and large bytes. *)
Example hex_pads_each_byte : hex [x00; x0f; x10; xff] = "000f10ff".
Proof. reflexivity. Qed.

(** * More of the code *)

(** ** A drain pass with a store that accepts *)

Lemma sendWebhook_healthy (item : Item) (x : Exchange) (w : World) :
  write_faults w = [] →
  throws (sendWebhook item x) w = false ∧
  write_faults (after (sendWebhook item x) w) = [].
Proof.
  destruct w as [? ? ? ? ? ? ? ? fl ? ?]. cbn. intros ->.
  destruct x as [[status body|message] lat]; run_m;
    try (destruct (response_ok status); run_m);
    try case_bool_decide; run_m; done.
Qed.

Lemma run_events_cons (ev : Event) (evs : list Event) (w : World) :
  run_events (ev :: evs) w = run_events evs (step w ev).
Proof. reflexivity. Qed.

(** X1. With a store that accepts its writes, a drain pass sends the attempt
    in its hands and then the queued attempts in queue order, one request per
    attempt whatever the responses are, and ends with an empty queue and
    [processing] reset. *)
Theorem drain_pass_sends_in_queue_order (xs : list Exchange) (w : World) (item : Item) :
  inflight w = Some item →
  processing w = true →
  write_faults w = [] →
  length xs = S (length (queue w)) →
  let w' := run_events (Settle <$> xs) w in
  outbox w' = outbox w ++ (request <$> item :: queue w) ∧
  pending w' = [] ∧ processing w' = false.
Proof.
  revert w item. induction xs as [|x xs IH]; intros w item Hi Hp Hf Hlen; [done|].
  cbn zeta. rewrite fmap_cons, run_events_cons. unfold step, settle. rewrite Hi.
  destruct (sendWebhook_frame item x (set_inflight None w)) as (Hq & Hp' & _ & _ & Ho).
  destruct (sendWebhook_healthy item x (set_inflight None w) Hf) as (Hth & Hf').
  unfold after in Hq, Hp', Ho, Hf'. unfold throws in Hth.
  destruct (sendWebhook item x (set_inflight None w)) as [[[]|message] w1];
    cbn in Hq, Hp', Ho, Hf', Hth; [|done].
  unfold drain. rewrite Hq. destruct (queue w) as [|next rest] eqn:Hqueue.
  - destruct xs; [|done]. cbn. by rewrite Ho.
  - cbn in Hlen.
    destruct (IH (set_inflight (Some next) (set_queue rest w1)) next)
      as (Ho2 & Hpend & Hproc); [done| by rewrite <- Hp | done | cbn; lia |].
    cbn in Ho2. split; [|done].
    rewrite Ho2, Ho, <- app_assoc. done.
Qed.

(** ** Every attempt ends *)

Lemma sends_left_positive (item : Item) : (1 ≤ sends_left item)%nat.
Proof. unfold sends_left. lia. Qed.

Lemma sends_left_retried (item : Item) :
  retries item < wh_retry_count (webhook item) →
  (sends_left (retried item) + 1 = sends_left item)%nat.
Proof. unfold sends_left. cbn. lia. Qed.

Lemma sum_list_delete (l : list nat) (n : nat) (k : nat) :
  l !! n = Some k → (sum_list (base.delete n l) + k = sum_list l)%nat.
Proof.
  revert n. induction l as [|a l IH]; intros [|n] Hl; simplify_eq/=; [lia|].
  specialize (IH n Hl). lia.
Qed.

Lemma budget_drain (w : World) :
  (budget (drain w) ≤ budget w)%nat ∧ outbox (drain w) = outbox w.
Proof.
  unfold budget, lineages. rewrite pending_drain.
  assert (Ht : timers (drain w) = timers w ∧ outbox (drain w) = outbox w)
    by (unfold drain; by destruct (queue w)).
  destruct Ht as [-> ->]. split; [|done].
  unfold pending. rewrite !fmap_app, !sum_list_with_app. lia.
Qed.

Lemma budget_start_drain (w : World) :
  (budget (drain (set_processing true w)) ≤ budget w)%nat ∧
  outbox (drain (set_processing true w)) = outbox w.
Proof. apply (budget_drain (set_processing true w)). Qed.

Lemma step_budget (w : World) (ev : Event) :
  is_trigger ev = false →
  (length (outbox (step w ev)) + budget (step w ev) ≤ length (outbox w) + budget w)%nat.
Proof.
  intros Hev. destruct ev as [eventType payload | | n | x |]; [done| | | |]; unfold step.
  - destruct (tick_world w) as [-> | [_ ->]]; [done|].
    destruct (budget_start_drain w) as [Hb ->]. lia.
  - unfold fire. destruct (timers w !! n) as [[delay item]|] eqn:Ht; [|done].
    cbn. unfold budget, lineages, pending. cbn.
    rewrite !fmap_app, !sum_list_with_app. cbn.
    assert (Hs : (sum_list (sends_left <$> (base.delete n (timers w)).*2) + sends_left item
                  = sum_list (sends_left <$> (timers w).*2))%nat).
    { rewrite <- !list_fmap_compose.
      rewrite <- (sum_list_delete ((sends_left ∘ snd) <$> timers w) n (sends_left item)).
      - by rewrite list_fmap_delete.
      - by rewrite list_lookup_fmap, Ht. }
    lia.
  - unfold settle. destruct (inflight w) as [item|] eqn:Hi; [|done].
    destruct (sendWebhook_frame item x (set_inflight None w)) as (Hq & _ & Hi' & _ & Ho).
    pose proof (sendWebhook_timers item x (set_inflight None w)) as Ht.
    unfold after in Hq, Hi', Ho, Ht. cbn in Hq, Hi', Ho, Ht.
    pose proof (sends_left_positive item) as Hpos.
    assert (Hb : (sum_list (sends_left <$> queue (sendWebhook item x (set_inflight None w)).2) +
                  sum_list (sends_left <$> (timers (sendWebhook item x (set_inflight None w)).2).*2)
                  + 1 ≤ budget w)%nat).
    { rewrite Hq. unfold budget, lineages, pending. rewrite Hi. cbn.
      rewrite !fmap_app, !sum_list_with_app.
      destruct Ht as [-> | (_ & Hlt & ->)]; [lia|].
      rewrite !fmap_app, !sum_list_with_app. cbn.
      pose proof (sends_left_retried item Hlt). lia. }
    destruct (sendWebhook item x (set_inflight None w)) as [[[]|message] w1];
      cbn in Hq, Hi', Ho, Hb |- *.
    + destruct (budget_drain w1) as [Hd ->]. rewrite Ho, length_app. cbn.
      assert (budget w1 = sum_list (sends_left <$> queue w1) +
                          sum_list (sends_left <$> (timers w1).*2))%nat.
      { unfold budget, lineages, pending. rewrite Hi'. cbn.
        by rewrite !fmap_app, !sum_list_with_app. }
      lia.
    + rewrite Ho, length_app. cbn.
      assert (budget w1 = sum_list (sends_left <$> queue w1) +
                          sum_list (sends_left <$> (timers w1).*2))%nat.
      { unfold budget, lineages, pending. rewrite Hi'. cbn.
        by rewrite !fmap_app, !sum_list_with_app. }
      lia.
  - destruct (processQueue_world w) as [-> | [_ ->]]; [done|].
    destruct (budget_start_drain w) as [Hb ->]. lia.
Qed.

(** X2. Between two triggers the number of requests that leave through the
    queue is bounded: every attempt that is pending or held by a timer is
    sent at most once more for the send ahead of it and once for each retry
    it has left, whatever the endpoints answer and whatever the store
    does. *)
Theorem queue_sends_are_bounded_by_retry_budget (evs : list Event) (w : World) :
  forallb (λ ev, negb (is_trigger ev)) evs = true →
  (length (outbox (run_events evs w)) + budget (run_events evs w)
   ≤ length (outbox w) + budget w)%nat.
Proof.
  revert w. induction evs as [|ev evs IH]; intros w Hevs; [done|].
  cbn in Hevs. apply andb_true_iff in Hevs as [Hev Hevs].
  apply negb_true_iff in Hev.
  rewrite run_events_cons.
  pose proof (step_budget w ev Hev). specialize (IH (step w ev) Hevs). lia.
Qed.

Lemma tick_starts_pass (w : World) :
  processing w = false → queue w ≠ [] →
  after tick w = drain (set_processing true w).
Proof.
  intros Hp Hq. unfold after, tick, processQueue, get, mbind, M_bind, mret, M_ret.
  cbn. rewrite Hp. cbn.
  destruct (queue w) as [|item rest] eqn:Hqueue; [done|]. cbn.
  rewrite bool_decide_true by lia. rewrite Hp. cbn.
  rewrite Hqueue. by rewrite bool_decide_false.
Qed.

(** X3. The way of a retry through the page: the send fails below the
    maximum, the pass ends and leaves the page idle with one timer; the timer
    callback puts the attempt in the queue, where it waits; the next interval
    tick starts a pass that takes it in hand with its counter raised by
    one. *)
Theorem failed_attempt_comes_back_with_next_counter
    (item : Item) (x : Exchange) (w : World) :
  inflight w = Some item → queue w = [] → timers w = [] → processing w = true →
  write_faults w = [] →
  failed (outcome x) = true →
  retries item < wh_retry_count (webhook item) →
  (processing (run_events [Settle x] w) = false ∧
   pending (run_events [Settle x] w) = [] ∧
   timers (run_events [Settle x] w) = [(retryDelay * 2 ^ retries item, retried item)]) ∧
  (processing (run_events [Settle x; Fire 0] w) = false ∧
   inflight (run_events [Settle x; Fire 0] w) = None ∧
   queue (run_events [Settle x; Fire 0] w) = [retried item]) ∧
  (processing (run_events [Settle x; Fire 0; Tick] w) = true ∧
   inflight (run_events [Settle x; Fire 0; Tick] w) = Some (retried item) ∧
   queue (run_events [Settle x; Fire 0; Tick] w) = [] ∧
   timers (run_events [Settle x; Fire 0; Tick] w) = []).
Proof.
  intros Hi Hq Ht Hp Hf Hfail Hlt.
  assert (Hs : ∃ w1, run_events [Settle x] w = w1 ∧ processing w1 = false ∧
                     inflight w1 = None ∧ queue w1 = [] ∧
                     timers w1 = [(retryDelay * 2 ^ retries item, retried item)]).
  { unfold run_events. cbn. unfold settle. rewrite Hi.
    destruct (sendWebhook_frame item x (set_inflight None w)) as (Hq' & Hp' & _).
    destruct (sendWebhook_healthy item x (set_inflight None w) Hf) as (Hth & _).
    pose proof (sendWebhook_retry item x (set_inflight None w) Hfail Hlt Hth) as Ht'.
    unfold after in Hq', Hp', Ht'. unfold throws in Hth. cbn in Hq', Ht'.
    destruct (sendWebhook item x (set_inflight None w)) as [[[]|message] w1];
      cbn in Hq', Hp', Ht', Hth; [|done].
    eexists. split; [reflexivity|].
    unfold drain. rewrite Hq', Hq. cbn. by rewrite Hq', Hq, Ht', Ht. }
  destruct Hs as (w1 & Hw1 & Hp1 & Hi1 & Hq1 & Ht1).
  change (run_events [Settle x; Fire 0] w) with (fire 0 (run_events [Settle x] w)).
  change (run_events [Settle x; Fire 0; Tick] w)
    with (after tick (fire 0 (run_events [Settle x] w))).
  rewrite Hw1. split; [by unfold pending; rewrite Hi1, Hq1|].
  unfold fire. rewrite Ht1. cbn. rewrite Hq1, Hp1, Hi1. split; [done|].
  rewrite tick_starts_pass by done. unfold drain. cbn. done.
Qed.

(** X4. A 2xx response whose record the store refuses is treated as a
    failed delivery: the refusal lands in the [catch] block, which writes a
    failure record that carries the store's error message and no status, and
    schedules a retry when one is left, so the delivered event is sent
    again. *)
Theorem refused_success_record_makes_delivery_a_failure
    (item : Item) (x : Exchange) (w : World)
    (status : Z) (body message : string) (rest : list (option string)) :
  outcome x = Responded status body →
  response_ok status = true →
  write_faults w = Some message :: rest →
  accepts 1 (set_write_faults rest w) = true →
  let w' := after (sendWebhook item x) w in
  throws (sendWebhook item x) w = false ∧
  (∃ r, webhook_deliveries w' = webhook_deliveries w ++ [r] ∧
        success r = SqlInt 0 ∧ response_status r = SqlNull ∧
        error_message r = SqlText message ∧
        retry_count r = SqlInt (retries item)) ∧
  (retries item < wh_retry_count (webhook item) →
   timers w' = timers w ++ [(retryDelay * 2 ^ retries item, retried item)]).
Proof.
  intros Ho Hok Hf Ha. destruct x as [o lat]; cbn in Ho; subst o.
  destruct w as [? ? ? ? ? ? ? ? fl ? ?]. cbn in Hf, Ha. subst fl.
  destruct rest as [|[?|] rest]; [|done|].
  all: run_m; case_bool_decide; run_m.
  all: repeat split; try done; eexists; repeat split; done.
Qed.

(** ** The request headers *)

(** X5. The headers of a request: [X-Event-Type] is the event type and no
    subscription header can replace it; [Content-Type] is the subscription's
    own when it has one and [application/json] otherwise; every other
    subscription header passes through unchanged, except for the signature
    header. *)
Theorem request_headers_fixed_default_and_passed (item : Item) :
  req_headers (request item) !! "X-Event-Type" = Some (eventType item) ∧
  req_headers (request item) !! "Content-Type" =
    Some (default "application/json" (wh_headers (webhook item) !! "Content-Type")) ∧
  ∀ name : string,
    name ≠ "X-Event-Type" → name ≠ "X-Webhook-Signature" → name ≠ "Content-Type" →
    req_headers (request item) !! name = wh_headers (webhook item) !! name.
Proof.
  unfold request, buildHeaders. cbn. split; [apply lookup_insert_eq|]. split.
  - rewrite lookup_insert_ne by done.
    assert (Hu : (wh_headers (webhook item) ∪ {["Content-Type" := "application/json"]})
                   !! "Content-Type"
                 = Some (default "application/json"
                           (wh_headers (webhook item) !! "Content-Type"))).
    { rewrite lookup_union, lookup_singleton_eq.
      by destruct (wh_headers (webhook item) !! "Content-Type"). }
    destruct (wh_secret (webhook item)) as [secret|]; [|done].
    destruct (truthy_string secret); [|done].
    by rewrite lookup_insert_ne.
  - intros name H1 H2 H3. rewrite lookup_insert_ne by done.
    assert (Hu : (wh_headers (webhook item) ∪ {["Content-Type" := "application/json"]})
                   !! name = wh_headers (webhook item) !! name).
    { apply lookup_union_l. by apply lookup_singleton_ne. }
    destruct (wh_secret (webhook item)) as [secret|]; [|done].
    destruct (truthy_string secret); [|done].
    by rewrite lookup_insert_ne.
Qed.

(** X6. A subscription without a secret, or with the empty string as
    secret, gets no computed signature: the request carries whatever
    [X-Webhook-Signature] header the subscription itself configures, or
    none. *)
Theorem unsigned_request_keeps_configured_signature_header (item : Item) :
  wh_secret (webhook item) = None ∨ wh_secret (webhook item) = Some "" →
  req_headers (request item) !! "X-Webhook-Signature" =
  wh_headers (webhook item) !! "X-Webhook-Signature".
Proof.
  intros Hs. unfold request, buildHeaders. cbn.
  rewrite lookup_insert_ne by done.
  assert (Hu : (wh_headers (webhook item) ∪ {["Content-Type" := "application/json"]})
                 !! "X-Webhook-Signature"
               = wh_headers (webhook item) !! "X-Webhook-Signature").
  { apply lookup_union_l. by apply lookup_singleton_ne. }
  by destruct Hs as [-> | ->].
Qed.

(** ** The hex form of the signature *)

Lemma string_length_app (s1 s2 : string) :
  String.length (s1 +:+ s2) = (String.length s1 + String.length s2)%nat.
Proof.
  induction s1 as [|c s1 IH]; [reflexivity|].
  change (S (String.length (s1 +:+ s2)) = S (String.length s1 + String.length s2)).
  by rewrite IH.
Qed.

Lemma string_chars_app (s1 s2 : string) :
  String.list_ascii_of_string (s1 +:+ s2) =
  String.list_ascii_of_string s1 ++ String.list_ascii_of_string s2.
Proof.
  induction s1 as [|c s1 IH]; [reflexivity|].
  change (c :: String.list_ascii_of_string (s1 +:+ s2) =
          c :: (String.list_ascii_of_string s1 ++ String.list_ascii_of_string s2)).
  by rewrite IH.
Qed.

Lemma hex_of_byte_digits (b : byte) :
  hex_of_byte b =
  String (hex_digit (Byte.to_N b / 16)) (String (hex_digit (Byte.to_N b mod 16)) "").
Proof. destruct b; reflexivity. Qed.

Lemma hex_cons (b : byte) (bytes : list byte) :
  hex (b :: bytes) = hex_of_byte b +:+ hex bytes.
Proof.
  destruct bytes as [|b' bytes].
  - change (hex [b]) with (hex_of_byte b). change (hex []) with "".
    by rewrite hex_of_byte_digits.
  - reflexivity.
Qed.

Lemma hex_digit_small (n : N) :
  (n < 16)%N →
  is_hex_digit (hex_digit n) = true ∧ hex_digit_value (hex_digit n) = Some n.
Proof.
  intros Hn. rewrite <- (N2Nat.id n).
  assert (Hk : (N.to_nat n < 16)%nat) by lia.
  generalize dependent (N.to_nat n). intros k Hk.
  do 16 (destruct k as [|k]; [by split|]). lia.
Qed.

Lemma hex_byte_halves (b : byte) :
  (Byte.to_N b / 16 < 16)%N ∧ (Byte.to_N b mod 16 < 16)%N ∧
  Byte.of_N (16 * (Byte.to_N b / 16) + Byte.to_N b mod 16) = Some b.
Proof.
  pose proof (Byte.to_N_bounded b) as Hb.
  split; [apply N.Div0.div_lt_upper_bound; lia|].
  split; [by apply N.mod_lt|].
  rewrite <- N.div_mod by done. apply Byte.of_to_N.
Qed.

(** X7. The hex form has two characters for every byte, all of them among
    [0-9a-f]: the signature of a 32-byte digest is 64 lowercase hex
    characters. *)
Theorem hex_is_two_lowercase_digits_per_byte (bytes : list byte) :
  String.length (hex bytes) = (2 * length bytes)%nat ∧
  Forall (λ c, is_hex_digit c = true) (String.list_ascii_of_string (hex bytes)).
Proof.
  induction bytes as [|b bytes [IHl IHc]]; [by split|].
  rewrite hex_cons, string_length_app, string_chars_app, hex_of_byte_digits.
  destruct (hex_byte_halves b) as (Hhi & Hlo & _).
  destruct (hex_digit_small _ Hhi) as [H1 _], (hex_digit_small _ Hlo) as [H2 _].
  split.
  - change (String.length (String _ (String _ ""))) with 2%nat.
    rewrite IHl. cbn [length]. lia.
  - change (String.list_ascii_of_string (String ?a (String ?b "")))
      with [a; b].
    by repeat (apply Forall_cons; split; [done|]).
Qed.

(** X8. Reading the hex form back gives the bytes: distinct digests have
    distinct signatures. *)
Theorem unhex_hex_round_trip (bytes : list byte) :
  unhex (hex bytes) = Some bytes.
Proof.
  induction bytes as [|b bytes IH]; [done|].
  rewrite hex_cons, hex_of_byte_digits.
  destruct (hex_byte_halves b) as (Hhi & Hlo & Hb).
  destruct (hex_digit_small _ Hhi) as [_ H1], (hex_digit_small _ Hlo) as [_ H2].
  change (String ?a (String ?c "") +:+ ?s) with (String a (String c s)).
  cbn [unhex]. rewrite H1, H2. cbn [mbind option_bind]. rewrite Hb.
  cbn [mbind option_bind]. by rewrite IH.
Qed.

(** ** The identifiers *)

Lemma toString16_small (n : N) :
  (n < 16)%N → toString16 n = String (hex_digit n) "".
Proof. intros Hn. unfold toString16. by rewrite (proj2 (N.ltb_lt n 16) Hn). Qed.

Lemma variant_small (r : N) :
  (8 ≤ N.lor (N.land r 3) 8 < 12)%N.
Proof.
  assert (Hr : (N.land r 3 < 4)%N).
  { change 3%N with (N.ones 2). rewrite N.land_ones. by apply N.mod_lt. }
  rewrite <- (N2Nat.id (N.land r 3)).
  assert (Hk : (N.to_nat (N.land r 3) < 4)%nat) by lia.
  generalize dependent (N.to_nat (N.land r 3)). intros k Hk.
  do 4 (destruct k as [|k]; [split; by vm_compute|]). lia.
Qed.

Lemma variant_digit (r : N) :
  ∃ c, toString16 (N.lor (N.land r 3) 8) = String c "" ∧
       c ∈ String.list_ascii_of_string "89ab" ∧ is_hex_digit c = true.
Proof.
  pose proof (variant_small r) as Hv.
  exists (hex_digit (N.lor (N.land r 3) 8)).
  rewrite toString16_small by lia. split; [done|].
  rewrite <- (N2Nat.id (N.lor (N.land r 3) 8)).
  assert (Hk : (8 ≤ N.to_nat (N.lor (N.land r 3) 8) < 12)%nat) by lia.
  generalize dependent (N.to_nat (N.lor (N.land r 3) 8)). intros k Hk.
  do 8 (destruct k as [|k]; [lia|]).
  do 4 (destruct k as [|k];
        [split; [cbn; repeat first [apply list_elem_of_here | apply list_elem_of_further]
                | done]|]).
  lia.
Qed.

(** X9. Whatever [Math.random] draws, [generateUUID] returns 36 characters
    in the 8-4-4-4-12 layout of a version-4 UUID: hyphens at positions 8, 13,
    18 and 23, the version digit 4 at position 14, one of 8, 9, a, b at
    position 19, and lowercase hex digits everywhere else. *)
Theorem generateUUID_is_version_4_layout (draw : nat → N) :
  (∀ n, (draw n < 16)%N) →
  let uuid := generateUUID_of_draws draw in
  String.length uuid = 36%nat ∧
  Forall (λ i, String.get i uuid = Some "-"%char) [8; 13; 18; 23]%nat ∧
  String.get 14 uuid = Some "4"%char ∧
  (∃ c, String.get 19 uuid = Some c ∧ c ∈ String.list_ascii_of_string "89ab") ∧
  Forall (λ c, is_hex_digit c = true ∨ c = "-"%char) (String.list_ascii_of_string uuid).
Proof.
  intros Hdraw uuid.
  destruct (variant_digit (draw 15%nat)) as (v & Hv & Hin & Hhex).
  assert (Hu : generateUUID_of_draws draw =
    String (hex_digit (draw 0%nat)) (String (hex_digit (draw 1%nat))
    (String (hex_digit (draw 2%nat)) (String (hex_digit (draw 3%nat))
    (String (hex_digit (draw 4%nat)) (String (hex_digit (draw 5%nat))
    (String (hex_digit (draw 6%nat)) (String (hex_digit (draw 7%nat))
    (String "-" (String (hex_digit (draw 8%nat)) (String (hex_digit (draw 9%nat))
    (String (hex_digit (draw 10%nat)) (String (hex_digit (draw 11%nat))
    (String "-" (String "4" (String (hex_digit (draw 12%nat))
    (String (hex_digit (draw 13%nat)) (String (hex_digit (draw 14%nat))
    (String "-" (String v (String (hex_digit (draw 16%nat))
    (String (hex_digit (draw 17%nat)) (String (hex_digit (draw 18%nat))
    (String "-" (String (hex_digit (draw 19%nat)) (String (hex_digit (draw 20%nat))
    (String (hex_digit (draw 21%nat)) (String (hex_digit (draw 22%nat))
    (String (hex_digit (draw 23%nat)) (String (hex_digit (draw 24%nat))
    (String (hex_digit (draw 25%nat)) (String (hex_digit (draw 26%nat))
    (String (hex_digit (draw 27%nat)) (String (hex_digit (draw 28%nat))
    (String (hex_digit (draw 29%nat)) (String (hex_digit (draw 30%nat))
      "")))))))))))))))))))))))))))))))))))).
  { unfold generateUUID_of_draws.
    cbn [replace_xy Ascii.eqb Bool.eqb].
    rewrite Hv, !toString16_small by apply Hdraw. reflexivity. }
  assert (Hd : ∀ n, is_hex_digit (hex_digit (draw n)) = true).
  { intros n. by destruct (hex_digit_small (draw n) (Hdraw n)). }
  subst uuid. rewrite Hu. split; [reflexivity|].
  split; [by repeat constructor|]. split; [reflexivity|].
  split; [by exists v|].
  change (String.list_ascii_of_string (String ?a ?s))
    with (a :: String.list_ascii_of_string s).
  repeat (apply Forall_cons; split;
          [first [by right | left; first [apply Hd | exact Hhex | reflexivity]]|]).
  constructor.
Qed.

(** ** Registering and deleting subscriptions *)

Lemma headers_json_round_trip (headers : gmap string string) :
  DatabaseService.headers_of_json (DatabaseService.json_of_headers headers) = headers.
Proof.
  unfold DatabaseService.headers_of_json, DatabaseService.json_of_headers.
  rewrite <- (list_to_map_to_list headers) at 2. f_equal.
  induction (map_to_list headers) as [|[k v] l IH]; [done|].
  cbn. by rewrite IH.
Qed.

Lemma events_json_round_trip (events : list string) :
  DatabaseService.events_of_json (DatabaseService.json_of_events events) = events.
Proof.
  unfold DatabaseService.events_of_json, DatabaseService.json_of_events.
  induction events as [|e events IH]; [done|]. cbn. by rewrite IH.
Qed.

Lemma apply_write_webhook id now name url method headers secret retry_count timeout
    events metadata w :
  DatabaseService.apply_write DatabaseService.SQL_INSERT_WEBHOOK
    [SqlText id; now; SqlText name; SqlText url; SqlText method; SqlJson headers;
     secret; SqlInt retry_count; SqlInt timeout; SqlJson events; metadata] w =
  set_webhooks
    (webhooks w ++
       [{| wh_id := id; wh_name := name; wh_url := url; wh_method := method;
           wh_headers := DatabaseService.headers_of_json headers;
           wh_secret := match secret with SqlText s => Some s | _ => None end;
           wh_active := true; wh_retry_count := retry_count; wh_timeout := timeout;
           wh_events := DatabaseService.events_of_json events |}]) w.
Proof. reflexivity. Qed.

Ltac run_register :=
  unfold after, register, DatabaseService.createWebhook, DatabaseService.run,
    DatabaseService.db_run, DatabaseService.generateUUID, DatabaseService.getTimestamp,
    Date_toISOString, DatabaseService.saveToIndexedDB, loggingPlugin_info,
    console_error, try_catch, throw, get, mbind, M_bind, mret, M_ret;
  cbn -[DatabaseService.apply_write DatabaseService.json_of_headers
        DatabaseService.json_of_events];
  rewrite ?apply_write_webhook, ?headers_json_round_trip, ?events_json_round_trip.

Lemma accepts_first (w : World) :
  accepts 1 w = true →
  write_faults w = [] ∨ ∃ rest, write_faults w = None :: rest.
Proof.
  unfold accepts. destruct (write_faults w) as [|[message|] rest]; cbn;
    [by left | done | right; by exists rest].
Qed.

(** X10. A subscription that the store accepts is stored active, under the
    identifier that [register] returns, with the caller's name, URL and
    secret, and with the defaults of the code for what the caller left out:
    method POST, no headers, no events, three retries, a timeout of 30
    seconds.  Registering touches neither the queue nor the timers. *)
Theorem register_stores_subscription_with_defaults
    (webhookData : DatabaseService.WebhookData) (w : World) :
  accepts 1 w = true →
  let id := random_uuid (uuids_drawn w) in
  let w' := after (register webhookData) w in
  (register webhookData w).1 = Return id ∧
  webhooks w' = webhooks w ++
    [{| wh_id := id;
        wh_name := DatabaseService.wd_name webhookData;
        wh_url := DatabaseService.wd_url webhookData;
        wh_method := default "POST" (DatabaseService.wd_method webhookData);
        wh_headers := default ∅ (DatabaseService.wd_headers webhookData);
        wh_secret := DatabaseService.wd_secret webhookData;
        wh_active := true;
        wh_retry_count := default 3 (DatabaseService.wd_retry_count webhookData);
        wh_timeout := default 30 (DatabaseService.wd_timeout webhookData);
        wh_events := default [] (DatabaseService.wd_events webhookData) |}] ∧
  pending w' = pending w ∧ timers w' = timers w ∧
  webhook_deliveries w' = webhook_deliveries w.
Proof.
  intros Ha id w'. subst id w'.
  destruct w as [? ? ? ? ? whs ? ? fl ? ?].
  apply accepts_first in Ha. cbn in Ha.
  destruct Ha as [-> | [rest ->]]; run_register; cbn.
  all: by destruct (DatabaseService.wd_secret webhookData).
Qed.


Lemma deactivate_rows (webhookId : string) (rows : list Webhook) :
  filter (λ hook, wh_active hook = true) (DatabaseService.deactivate webhookId <$> rows) =
  filter (λ hook, wh_active hook = true ∧ wh_id hook ≠ webhookId) rows.
Proof.
  induction rows as [|hook rows IH]; [done|].
  rewrite fmap_cons. unfold DatabaseService.deactivate at 1.
  destruct (String.eqb_spec (wh_id hook) webhookId) as [Heq | Hne].
  - rewrite filter_cons_False by (cbn; done).
    rewrite filter_cons_False by (intros [_ ?]; done). exact IH.
  - destruct (wh_active hook) eqn:Hact.
    + rewrite filter_cons_True by done. rewrite filter_cons_True by done.
      by rewrite IH.
    + rewrite filter_cons_False by (rewrite Hact; done).
      rewrite filter_cons_False by (rewrite Hact; intros [? _]; done). exact IH.
Qed.

Lemma delete_world (webhookId : string) (w : World) :
  accepts 1 w = true →
  let w' := after (WebhookPlugin.delete webhookId) w in
  webhooks w' = DatabaseService.deactivate webhookId <$> webhooks w ∧
  queue w' = queue w ∧ inflight w' = inflight w ∧ processing w' = processing w ∧
  timers w' = timers w ∧ clock w' = clock w ∧ outbox w' = outbox w ∧
  accepts 1 w' = accepts 1 (set_write_faults (tail (write_faults w)) w).
Proof.
  intros Ha. destruct w as [? ? ? ? ? whs ? ? fl ? ?].
  unfold after, WebhookPlugin.delete, DatabaseService.run, DatabaseService.db_run,
    DatabaseService.saveToIndexedDB, loggingPlugin_info, console_error, try_catch,
    throw, mbind, M_bind, mret, M_ret.
  apply accepts_first in Ha. cbn in Ha.
  by destruct Ha as [-> | [rest ->]].
Qed.

(** X12. Deleting is a soft delete that acts on future triggers only: the
    attempts already pending or waiting in retry timers stay where they are
    and will still be sent, while every later trigger enqueues what it would
    have enqueued before, without the attempts for the deleted
    identifier. *)
Theorem deleted_subscription_gets_no_new_attempts
    (webhookId : string) (w : World) (eventType : string) (payload : Json) :
  accepts 1 w = true →
  consistent w = true →
  let w' := after (WebhookPlugin.delete webhookId) w in
  pending w' = pending w ∧ timers w' = timers w ∧
  pending (after (trigger eventType payload) w') =
  pending w ++
    (attempt (clock w) eventType payload <$>
       filter (λ hook, (wh_active hook = true ∧
                        (eventType ∈ wh_events hook ∨ "*" ∈ wh_events hook)) ∧
                       wh_id hook ≠ webhookId)
         (webhooks w)).
Proof.
  intros Ha Hc w'.
  destruct (delete_world webhookId w Ha) as (Hw & Hq & Hi & Hp & Ht & Hk & _).
  fold w' in Hw, Hq, Hi, Hp, Ht, Hk.
  assert (Hpend : pending w' = pending w) by (unfold pending; by rewrite Hq, Hi).
  split; [done|]. split; [done|].
  assert (Hc' : consistent w' = true) by (unfold consistent in *; by rewrite Hi, Hp).
  destruct (trigger_pending eventType payload w' Hc') as (Htr & _).
  rewrite Htr, Hpend, Hk, Hw, deactivate_rows. f_equal. f_equal.
  rewrite list_filter_filter. apply list_filter_iff. intros hook.
  rewrite subscribed_spec. tauto.
Qed.

(** ** The test operation on deleted and unknown subscriptions *)

Lemma deactivate_lookup (webhookId : string) (rows : list Webhook) (hook : Webhook) :
  head (filter (λ h, wh_id h = webhookId) rows) = Some hook →
  head (filter (λ h, wh_id h = webhookId) (DatabaseService.deactivate webhookId <$> rows)) =
  Some (DatabaseService.deactivate webhookId hook).
Proof.
  induction rows as [|row rows IH]; [done|]. rewrite fmap_cons.
  destruct (decide (wh_id row = webhookId)) as [Heq | Hne].
  - rewrite filter_cons_True by done. intros Hh. simpl in Hh. injection Hh as ->.
    rewrite filter_cons_True; [done|].
    unfold DatabaseService.deactivate. by destruct (String.eqb _ _).
  - rewrite filter_cons_False by done. intros Hh.
    rewrite filter_cons_False; [by apply IH|].
    unfold DatabaseService.deactivate. by destruct (String.eqb _ _).
Qed.

(** X13. [test] looks the subscription up by identifier alone, so it still
    reaches a deleted subscription: after [delete], the test request goes to
    the URL of the deactivated row. *)
Theorem test_still_reaches_deleted_subscription
    (webhookId : string) (testPayload : Json) (x : Exchange) (w : World) (hook : Webhook) :
  accepts 1 w = true →
  head (filter (λ h, wh_id h = webhookId) (webhooks w)) = Some hook →
  let w' := after (WebhookPlugin.delete webhookId) w in
  ∃ request,
    outbox (after (test webhookId testPayload x) w') = outbox w ++ [request] ∧
    req_url request = wh_url hook ∧
    req_headers request !! "X-Event-Type" = Some "test".
Proof.
  intros Ha Hh w'.
  destruct (delete_world webhookId w Ha) as (Hw & _ & _ & _ & _ & _ & Ho & _).
  fold w' in Hw, Ho.
  assert (Hh' : head (filter (λ h, wh_id h = webhookId) (webhooks w')) =
                Some (DatabaseService.deactivate webhookId hook)).
  { rewrite Hw. by apply deactivate_lookup. }
  pose proof (test_is_send webhookId testPayload x w' _ Hh') as Ht.
  unfold after. rewrite Ht.
  match goal with |- context [sendWebhook ?it x ?w0] =>
    destruct (sendWebhook_frame it x w0) as (_ & _ & _ & _ & Hout);
    exists (request it) end.
  unfold after in Hout. rewrite Hout. cbn. rewrite Ho. split; [done|]. split.
  - unfold DatabaseService.deactivate. by destruct (String.eqb _ _).
  - apply lookup_insert_eq.
Qed.

(** X14. [test] with an identifier that no row has throws "Webhook not
    found" before anything is sent, recorded or scheduled. *)
Theorem test_unknown_subscription_throws_before_send
    (webhookId : string) (testPayload : Json) (x : Exchange) (w : World) :
  filter (λ h, wh_id h = webhookId) (webhooks w) = [] →
  let w' := after (test webhookId testPayload x) w in
  (test webhookId testPayload x w).1 = Throw "Webhook not found" ∧
  outbox w' = outbox w ∧ webhook_deliveries w' = webhook_deliveries w ∧
  timers w' = timers w ∧ pending w' = pending w.
Proof.
  intros Hf.
  unfold after, test, DatabaseService.getOne, DatabaseService.exec, DatabaseService.db_exec,
    Date_toISOString, try_catch, throw, get, mbind, M_bind, mret, M_ret.
  cbn. by rewrite Hf.
Qed.

(** X15. A trigger that matches no active subscription returns at once: it
    adds nothing and does not start the drain loop, even when the page is
    idle with attempts waiting in the queue. *)
Theorem trigger_without_match_leaves_queue_alone
    (eventType : string) (payload : Json) (w : World) :
  filter (λ hook, wh_active hook = true ∧
                  (eventType ∈ wh_events hook ∨ "*" ∈ wh_events hook)) (webhooks w) = [] →
  let w' := after (trigger eventType payload) w in
  queue w' = queue w ∧ inflight w' = inflight w ∧ processing w' = processing w ∧
  timers w' = timers w ∧ outbox w' = outbox w.
Proof.
  intros Hm w'. subst w'. rewrite trigger_world. cbn zeta.
  assert (Hf : filter (λ hook, DatabaseService.subscribed eventType hook = true)
                 (filter (λ hook, wh_active hook = true) (webhooks w)) = []).
  { rewrite <- Hm, list_filter_filter. apply list_filter_iff. intros hook.
    rewrite subscribed_spec. tauto. }
  by rewrite Hf.
Qed.

(** ** Redelivery *)

Lemma retryDelivery_is_send (deliveryId : string) (x : Exchange) (w : World)
    (delivery : Delivery) (webhookId : string) (hook : Webhook) (item : Item) :
  head (filter (λ row, DatabaseService.has_id deliveryId row = true)
          (webhook_deliveries w)) = Some delivery →
  webhook_id delivery = SqlText webhookId →
  head (filter (λ h, wh_id h = webhookId) (webhooks w)) = Some hook →
  attempt_of_delivery hook delivery = Some item →
  retryDelivery deliveryId x w =
  sendWebhook item x
    (set_sql_trace
       (sql_trace w ++
          [(DatabaseService.SQL_SELECT_DELIVERY_BY_ID, [SqlText deliveryId]);
           (DatabaseService.SQL_SELECT_WEBHOOK_BY_ID, [SqlText webhookId])]) w).
Proof.
  intros Hd Hid Hh Hitem.
  unfold retryDelivery, DatabaseService.getOne_delivery, DatabaseService.exec_deliveries,
    DatabaseService.db_exec_deliveries, DatabaseService.getOne, DatabaseService.exec,
    DatabaseService.db_exec, try_catch, throw, get, mbind, M_bind, mret, M_ret.
  cbn. rewrite Hd, Hid. cbn. rewrite Hh, Hitem. by rewrite <- app_assoc.
Qed.

(** X16. Every record that a send writes can be redelivered: from the record
    and a subscription row, [retryDelivery] rebuilds an attempt with the
    event type, the payload and the retry counter of the send that wrote
    it. *)
Theorem written_record_rebuilds_its_attempt (item : Item) (x : Exchange) (w : World) :
  ∃ rows,
    webhook_deliveries (after (sendWebhook item x) w) = webhook_deliveries w ++ rows ∧
    Forall (λ r, ∀ hook,
              attempt_of_delivery hook r =
              Some {| webhook := hook; eventType := eventType item;
                      payload := payload item; retries := retries item;
                      timestamp := None |}) rows.
Proof.
  send_cases w x;
    first [ exists []; split; [by rewrite app_nil_r|]
          | eexists [_]; split; [reflexivity|]
          | eexists [_; _]; split; [by rewrite <- app_assoc|] ];
    repeat constructor.
Qed.

(** X17. Redelivery sends the rebuilt attempt through [sendWebhook] at once,
    outside the queue and for inactive subscriptions too.  It leaves every
    stored record as it is and appends its own records, which carry the
    counter of the redelivered record; a failed redelivery below the maximum
    goes on with the automatic retries from that counter. *)
Theorem redelivery_appends_records_and_continues_the_counter
    (deliveryId : string) (x : Exchange) (w : World)
    (delivery : Delivery) (webhookId : string) (hook : Webhook) (item : Item) :
  head (filter (λ row, DatabaseService.has_id deliveryId row = true)
          (webhook_deliveries w)) = Some delivery →
  webhook_id delivery = SqlText webhookId →
  head (filter (λ h, wh_id h = webhookId) (webhooks w)) = Some hook →
  attempt_of_delivery hook delivery = Some item →
  let w' := after (retryDelivery deliveryId x) w in
  retry_count delivery = SqlInt (retries item) ∧
  outbox w' = outbox w ++ [request item] ∧
  pending w' = pending w ∧
  (∃ rows, webhook_deliveries w' = webhook_deliveries w ++ rows ∧
           Forall (λ r, retry_count r = SqlInt (retries item)) rows) ∧
  (failed (outcome x) = true →
   retries item < wh_retry_count hook →
   throws (retryDelivery deliveryId x) w = false →
   timers w' = timers w ++ [(retryDelay * 2 ^ retries item, retried item)]).
Proof.
  intros Hd Hid Hh Hitem w'.
  pose proof (retryDelivery_is_send deliveryId x w delivery webhookId hook item
                Hd Hid Hh Hitem) as Hsend.
  assert (Hshape : retry_count delivery = SqlInt (retries item) ∧ webhook item = hook).
  { unfold attempt_of_delivery in Hitem.
    destruct (event_type delivery), (dl_payload delivery), (retry_count delivery);
      try done. by injection Hitem as <-. }
  destruct Hshape as [Hrc Hwh]. split; [done|].
  subst w'. unfold after, throws. rewrite Hsend.
  match goal with |- context [sendWebhook item x ?w0] => set (w1 := w0) end.
  fold (after (sendWebhook item x) w1). fold (throws (sendWebhook item x) w1).
  destruct (sendWebhook_frame item x w1) as (Hq & _ & Hi & _ & Ho).
  split; [exact Ho|]. split; [unfold pending; by rewrite Hq, Hi|]. split.
  - destruct (sendWebhook_rows item x w1) as (rows & Hrows & _ & Hall).
    exists rows. split; [exact Hrows|].
    eapply Forall_impl; [exact Hall|]. by intros r (? & _).
  - intros Hf Hlt Hth. rewrite <- Hwh in Hlt.
    by rewrite (sendWebhook_retry item x w1 Hf Hlt Hth).
Qed.

(** X18. Redelivery of a record that does not exist throws "Delivery not
    found", and redelivery of a record whose subscription row is gone throws
    "Webhook not found"; in both cases before anything is sent, recorded or
    scheduled. *)
Theorem redelivery_of_unknown_record_or_subscription_throws
    (deliveryId : string) (x : Exchange) (w : World) :
  let w' := after (retryDelivery deliveryId x) w in
  (filter (λ row, DatabaseService.has_id deliveryId row = true) (webhook_deliveries w) = [] →
   (retryDelivery deliveryId x w).1 = Throw "Delivery not found" ∧
   outbox w' = outbox w ∧ webhook_deliveries w' = webhook_deliveries w ∧
   timers w' = timers w) ∧
  (∀ delivery webhookId,
     head (filter (λ row, DatabaseService.has_id deliveryId row = true)
             (webhook_deliveries w)) = Some delivery →
     webhook_id delivery = SqlText webhookId →
     filter (λ h, wh_id h = webhookId) (webhooks w) = [] →
     (retryDelivery deliveryId x w).1 = Throw "Webhook not found" ∧
     outbox w' = outbox w ∧ webhook_deliveries w' = webhook_deliveries w ∧
     timers w' = timers w).
Proof.
  cbn zeta. split.
  - intros Hd.
    unfold after, retryDelivery, DatabaseService.getOne_delivery,
      DatabaseService.exec_deliveries, DatabaseService.db_exec_deliveries,
      try_catch, throw, get, mbind, M_bind, mret, M_ret.
    cbn. by rewrite Hd.
  - intros delivery webhookId Hd Hid Hh.
    unfold after, retryDelivery, DatabaseService.getOne_delivery,
      DatabaseService.exec_deliveries, DatabaseService.db_exec_deliveries,
      DatabaseService.getOne, DatabaseService.exec, DatabaseService.db_exec,
      try_catch, throw, get, mbind, M_bind, mret, M_ret.
    cbn. rewrite Hd, Hid. cbn. by rewrite Hh.
Qed.

(** ** The statement of [update] *)

Lemma count_char_app (c : ascii) (s1 s2 : string) :
  count_char c (s1 +:+ s2) = (count_char c s1 + count_char c s2)%nat.
Proof.
  induction s1 as [|c' s1 IH]; [reflexivity|].
  change (count_char c (String c' s1 +:+ s2))
    with ((if Ascii.eqb c c' then 1 else 0) + count_char c (s1 +:+ s2))%nat.
  rewrite IH. cbn [count_char]. lia.
Qed.

Lemma setClause_cons (key : string) (keys : list string) :
  count_char "?" (setClause (key :: keys)) =
  (count_char "?" key + 1 + count_char "?" (setClause keys))%nat.
Proof.
  unfold setClause. rewrite fmap_cons.
  destruct keys as [|key' keys].
  - cbn [fmap list_fmap].
    change (String.concat ", " [key +:+ " = ?"]) with (key +:+ " = ?").
    change (String.concat ", " []) with "".
    rewrite count_char_app. cbn [count_char Ascii.eqb Bool.eqb]. lia.
  - rewrite fmap_cons. cbn [fmap list_fmap].
    change (String.concat ", " (?a :: ?b :: ?l))
      with (a +:+ ", " +:+ String.concat ", " (b :: l)).
    rewrite !count_char_app. cbn [count_char Ascii.eqb Bool.eqb]. lia.
Qed.

Lemma setClause_placeholders (keys : list string) :
  Forall (λ key, count_char "?" key = 0%nat) keys →
  count_char "?" (setClause keys) = length keys.
Proof.
  induction 1 as [|key keys Hkey _ IH]; [reflexivity|].
  rewrite setClause_cons, Hkey, IH. reflexivity.
Qed.

Lemma kept_keys (updates : list (string * JsValue)) :
  (filter (λ kv : string * JsValue, kv.1 ∉ ["id"; "create_date"]) updates).*1 =
  filter (λ key, key ∉ ["id"; "create_date"]) (updates.*1).
Proof.
  induction updates as [|[k v] updates IH]; [done|].
  rewrite fmap_cons. cbn [fst].
  destruct (decide (k ∉ ["id"; "create_date"])) as [Hin | Hin].
  - rewrite (filter_cons_True _ (k, v)) by exact Hin.
    rewrite (filter_cons_True _ k) by exact Hin.
    rewrite fmap_cons. by rewrite IH.
  - rewrite (filter_cons_False _ (k, v)) by exact Hin.
    rewrite (filter_cons_False _ k) by exact Hin. exact IH.
Qed.

(** X19. The statement of [update] never assigns [id] or [create_date], and
    binds the subscription identifier last; when no key contains a question
    mark, the text has exactly as many placeholders as there are bound
    values: one per assigned key and one for the identifier. *)
Theorem update_binds_one_value_per_placeholder
    (webhookId : string) (updates : list (string * JsValue)) (w : World) :
  ∃ keys params,
    last (sql_trace (after (update webhookId updates) w)) =
      Some ("UPDATE webhooks SET " +:+ setClause keys +:+ " WHERE id = ?", params) ∧
    keys = filter (λ key, key ∉ ["id"; "create_date"]) (updates.*1) ∧
    ("id" ∉ keys) ∧ ("create_date" ∉ keys) ∧
    length params = S (length keys) ∧
    last params = Some (SqlText webhookId) ∧
    (Forall (λ kv, count_char "?" kv.1 = 0%nat) updates →
     count_char "?" ("UPDATE webhooks SET " +:+ setClause keys +:+ " WHERE id = ?")
     = length params).
Proof.
  pose proof (update_statement webhookId updates w) as Hs. cbn zeta in Hs.
  set (kept := filter (λ kv : string * JsValue, kv.1 ∉ ["id"; "create_date"]) updates) in *.
  assert (Hk : kept.*1 = filter (λ key, key ∉ ["id"; "create_date"]) (updates.*1))
    by apply kept_keys.
  eexists (kept.*1), _. split; [rewrite Hs; apply last_snoc|].
  split; [exact Hk|].
  split; [rewrite Hk; intros [Hn _]%list_elem_of_filter; apply Hn; set_solver|].
  split; [rewrite Hk; intros [Hn _]%list_elem_of_filter; apply Hn; set_solver|].
  split; [rewrite length_app, !length_fmap; cbn; lia|].
  split; [apply last_snoc|].
  intros Hq. rewrite !count_char_app, setClause_placeholders.
  - rewrite length_app, !length_fmap. cbn. lia.
  - rewrite Hk. apply Forall_forall. intros key [_ Hin]%list_elem_of_filter.
    apply list_elem_of_fmap in Hin as (kv & -> & Hin).
    rewrite Forall_forall in Hq. by apply Hq.
Qed.

(** X20. An update that names no column besides [id] and [create_date], an
    empty one included, still hands the store a statement: the UPDATE with an
    empty SET clause and the identifier as its only value. *)
Theorem update_without_columns_sends_empty_set_clause
    (webhookId : string) (updates : list (string * JsValue)) (w : World) :
  Forall (λ kv, kv.1 ∈ ["id"; "create_date"]) updates →
  last (sql_trace (after (update webhookId updates) w)) =
  Some ("UPDATE webhooks SET  WHERE id = ?", [SqlText webhookId]).
Proof.
  intros Hall. rewrite update_statement. cbn zeta. rewrite last_snoc.
  assert (Hk : filter (λ kv : string * JsValue, kv.1 ∉ ["id"; "create_date"]) updates = []).
  { induction Hall as [|kv updates Hkv _ IH]; [done|].
    by rewrite filter_cons_False by (intros Hn; by apply Hn). }
  by rewrite Hk.
Qed.

(** ** Attempts are not lost *)

(** X21. Outside of sends and triggers nothing adds, drops or duplicates an
    attempt: an interval tick, a call of [processQueue] and a timer callback
    only move attempts between the timers, the queue and the drain loop. *)
Theorem attempts_only_move_between_timers_queue_and_loop (w : World) (ev : Event) :
  consistent w = true →
  match ev with Tick | ProcessQueue | Fire _ => True | _ => False end →
  lineages (step w ev) ≡ₚ lineages w.
Proof.
  intros Hc Hev. destruct ev as [eventType payload | | n | x |]; try done; unfold step.
  - destruct (tick_world w) as [-> | [Hp ->]]; [done|].
    by destruct (lineages_start_drain w Hc Hp) as [-> _].
  - unfold fire. destruct (timers w !! n) as [[delay item]|] eqn:Ht; [|done].
    unfold lineages, pending. cbn.
    rewrite <- !app_assoc. apply Permutation_app_head. apply Permutation_app_head.
    rewrite list_fmap_delete. cbn.
    symmetry. apply (delete_Permutation ((timers w).*2) n item).
    by rewrite list_lookup_fmap, Ht.
  - destruct (processQueue_world w) as [-> | [Hp ->]]; [done|].
    by destruct (lineages_start_drain w Hc Hp) as [-> _].
Qed.

(** ** Listing the subscriptions *)

(** X22. [getAll] lists the active subscriptions and nothing else; after a
    delete that the store accepts, it lists every other active subscription
    as before and none with the deleted identifier. *)
Theorem getAll_lists_active_subscriptions_except_deleted
    (webhookId : string) (w : World) :
  (getAll w).1 = Return (filter (λ hook, wh_active hook = true) (webhooks w)) ∧
  (accepts 1 w = true →
   (getAll (after (WebhookPlugin.delete webhookId) w)).1 =
   Return (filter (λ hook, wh_active hook = true ∧ wh_id hook ≠ webhookId) (webhooks w))).
Proof.
  assert (Hg : ∀ w0, (getAll w0).1 =
                     Return (filter (λ hook, wh_active hook = true) (webhooks w0))).
  { intros w0. unfold getAll, DatabaseService.getAll, DatabaseService.exec,
      DatabaseService.db_exec, try_catch. reflexivity. }
  split; [apply Hg|]. intros Ha. rewrite Hg.
  destruct (delete_world webhookId w Ha) as (-> & _).
  by rewrite deactivate_rows.
Qed.

End Properties.

(** * The scenarios on the code *)

(** C1 (the code on the scenario of the claim).  Subscription with
    retry_count 2; the sends get HTTP 500, 500 and 200.  Each send with a
    non-2xx response leaves two delivery records, not one: the record written
    after the response, and the record of the [catch] block that the
    [throw] of the same response reaches.  Five records in all, with retry
    counts 0, 0, 1, 1, 2; every record carries the counter of its send. *)
Theorem C1_non_2xx_response_is_recorded_twice :
  summary <$> webhook_deliveries
    (delivery_run 2
       (WebhookPlugin.Settle (http 500) :: next_send (http 500) ++ next_send (http 200))) =
  [ (SqlInt 0, SqlInt 0, SqlInt 500); (SqlInt 0, SqlInt 0, SqlNull);
    (SqlInt 0, SqlInt 1, SqlInt 500); (SqlInt 0, SqlInt 1, SqlNull);
    (SqlInt 1, SqlInt 2, SqlInt 200) ].
Proof. vm_compute. reflexivity. Qed.

(** C2 (the code at the failing input).  The send fails, a retry is due
    (counter 0 below retry_count 2), and the store refuses the failure
    record: [sendWebhook] throws out of its [catch] block before the retry
    test, no timer is set, and the attempt is gone from queue and loop. *)
Theorem C2_refused_failure_record_drops_the_due_retry :
  retries (first_attempt 2) < wh_retry_count (webhook (first_attempt 2)) ∧
  throws (WebhookPlugin.sendWebhook (P:=demo_platform) (first_attempt 2) unreachable)
    (refusing "database is locked" (registered ["user.registered"] 2)) = true ∧
  timers (refused_run "database is locked" 2 [WebhookPlugin.Settle unreachable]) = [] ∧
  pending (refused_run "database is locked" 2 [WebhookPlugin.Settle unreachable]) = [] ∧
  webhook_deliveries (refused_run "database is locked" 2 [WebhookPlugin.Settle unreachable]) = [].
Proof. vm_compute. repeat split; reflexivity. Qed.

(** C4 (the code on the scenario of the claim).  Subscription with
    retry_count 0 whose single send gets HTTP 503: no retry is scheduled and
    the attempt is dropped, but two failure records with retry count 0 are
    written, the second one after a record with retry count equal to the
    maximum and success = 0 was already persisted. *)
Theorem C4_exhausted_non_2xx_send_is_recorded_twice :
  summary <$> webhook_deliveries (delivery_run 0 [WebhookPlugin.Settle (http 503)]) =
  [ (SqlInt 0, SqlInt 0, SqlInt 503); (SqlInt 0, SqlInt 0, SqlNull) ] ∧
  timers (delivery_run 0 [WebhookPlugin.Settle (http 503)]) = [] ∧
  pending (delivery_run 0 [WebhookPlugin.Settle (http 503)]) = [].
Proof. vm_compute. repeat split; reflexivity. Qed.

(** C10 (the code at the failing input).  The SQL text that [update] hands
    to the store contains the property names of its [updates] argument: a
    caller who picks the key picks the statement. *)
Theorem C10_update_builds_sql_text_from_caller_keys :
  last (sql_trace
          (after (WebhookPlugin.update "uuid-0"
                    [("active = 1, url", WebhookPlugin.JsPrimitive (SqlText "https://evil.test/"))])
             (registered ["user.registered"] 3))) =
  Some ("UPDATE webhooks SET active = 1, url = ? WHERE id = ?",
        [SqlText "https://evil.test/"; SqlText "uuid-0"]).
Proof. vm_compute. reflexivity. Qed.

(** C5, as stated, fails: the test of a subscription with retry_count 3
    whose endpoint answers HTTP 500 sets a retry timer. *)
Lemma C5_failed_test_schedules_a_retry :
  timers (registered ["user.registered"] 3) = [] ∧
  timers (after (WebhookPlugin.test (P:=demo_platform) "uuid-0" JNull (http 500))
            (registered ["user.registered"] 3)) =
  [(5000, WebhookPlugin.retried (probe "0" JNull (example_row ["user.registered"] 3)))].
Proof. vm_compute. split; reflexivity. Qed.

(** * The theorems at concrete inputs *)

(** The drain pass of the triggered attempt dies on a refused record; the
    tick, a second trigger and a direct call then leave both attempts where
    they are. *)
Lemma C3_wedge_after_refused_record :
  processing (refused_run "database is locked" 2 []) = true ∧
  inflight (refused_run "database is locked" 2 []) = Some (first_attempt 2) ∧
  throws (WebhookPlugin.sendWebhook (P:=demo_platform) (first_attempt 2) unreachable)
    (set_inflight None (refused_run "database is locked" 2 [])) = true ∧
  processing
    (WebhookPlugin.run_events (P:=demo_platform)
       [WebhookPlugin.Tick; WebhookPlugin.Trigger "user.registered" u1;
        WebhookPlugin.Tick; WebhookPlugin.ProcessQueue]
       (WebhookPlugin.settle (P:=demo_platform) unreachable
          (refused_run "database is locked" 2 []))) = true ∧
  outbox
    (WebhookPlugin.run_events (P:=demo_platform)
       [WebhookPlugin.Tick; WebhookPlugin.Trigger "user.registered" u1;
        WebhookPlugin.Tick; WebhookPlugin.ProcessQueue]
       (WebhookPlugin.settle (P:=demo_platform) unreachable
          (refused_run "database is locked" 2 []))) =
  outbox
    (WebhookPlugin.settle (P:=demo_platform) unreachable
       (refused_run "database is locked" 2 [])).
Proof.
  assert (Hp : processing (refused_run "database is locked" 2 []) = true)
    by reflexivity.
  assert (Hi : inflight (refused_run "database is locked" 2 []) = Some (first_attempt 2))
    by reflexivity.
  assert (Ht : throws (WebhookPlugin.sendWebhook (P:=demo_platform) (first_attempt 2) unreachable)
                 (set_inflight None (refused_run "database is locked" 2 [])) = true)
    by reflexivity.
  destruct (C3_throwing_send_wedges_the_queue (P:=demo_platform) (first_attempt 2)
              unreachable (refused_run "database is locked" 2 []) Hp Hi Ht)
    as (_ & _ & _ & Hevs).
  destruct (Hevs [WebhookPlugin.Tick; WebhookPlugin.Trigger "user.registered" u1;
                  WebhookPlugin.Tick; WebhookPlugin.ProcessQueue])
    as (Hp2 & _ & _ & Ho2 & _).
  exact (conj Hp (conj Hi (conj Ht (conj Hp2 Ho2)))).
Defined.

Lemma C5_test_retry_follows_retry_count :
  head (filter (λ h, wh_id h = "uuid-0") (webhooks (registered ["user.registered"] 3))) =
    Some (example_row ["user.registered"] 3) ∧
  head (filter (λ h, wh_id h = "uuid-0") (webhooks (registered ["user.registered"] 0))) =
    Some (example_row ["user.registered"] 0) ∧
  failed (outcome (http 500)) = true ∧
  0 < wh_retry_count (example_row ["user.registered"] 3) ∧
  wh_retry_count (example_row ["user.registered"] 0) ≤ 0 ∧
  throws (WebhookPlugin.test (P:=demo_platform) "uuid-0" JNull (http 500))
    (registered ["user.registered"] 3) = false ∧
  timers (after (WebhookPlugin.test (P:=demo_platform) "uuid-0" JNull (http 500))
            (registered ["user.registered"] 3)) =
  timers (registered ["user.registered"] 3) ++
    [(5000, WebhookPlugin.retried
              (probe (toISOString (Platform:=demo_platform)
                        (clock (registered ["user.registered"] 3)))
                 JNull (example_row ["user.registered"] 3)))] ∧
  timers (after (WebhookPlugin.test (P:=demo_platform) "uuid-0" JNull (http 500))
            (registered ["user.registered"] 0)) =
  timers (registered ["user.registered"] 0).
Proof.
  assert (H3 : head (filter (λ h, wh_id h = "uuid-0")
                       (webhooks (registered ["user.registered"] 3))) =
               Some (example_row ["user.registered"] 3)) by reflexivity.
  assert (H0 : head (filter (λ h, wh_id h = "uuid-0")
                       (webhooks (registered ["user.registered"] 0))) =
               Some (example_row ["user.registered"] 0)) by reflexivity.
  assert (Hf : failed (outcome (http 500)) = true) by reflexivity.
  assert (Hpos : 0 < wh_retry_count (example_row ["user.registered"] 3)) by reflexivity.
  assert (Hle : wh_retry_count (example_row ["user.registered"] 0) ≤ 0) by (simpl; lia).
  assert (Hth : throws (WebhookPlugin.test (P:=demo_platform) "uuid-0" JNull (http 500))
                  (registered ["user.registered"] 3) = false) by reflexivity.
  destruct (C5_test_sends_outside_queue_and_retries_like_delivery (P:=demo_platform)
              "uuid-0" JNull (http 500) (registered ["user.registered"] 3)
              (example_row ["user.registered"] 3) H3) as (_ & _ & _ & _ & Hretry & _).
  destruct (C5_test_sends_outside_queue_and_retries_like_delivery (P:=demo_platform)
              "uuid-0" JNull (http 500) (registered ["user.registered"] 0)
              (example_row ["user.registered"] 0) H0) as (_ & _ & _ & _ & _ & Hnone).
  exact (conj H3 (conj H0 (conj Hf (conj Hpos (conj Hle (conj Hth
           (conj (Hretry Hf Hpos Hth) (Hnone Hle)))))))).
Defined.

Lemma C6_first_retry_after_5000_ms :
  failed (outcome (http 500)) = true ∧
  0 ≤ retries (first_attempt 2) < wh_retry_count (webhook (first_attempt 2)) ∧
  throws (WebhookPlugin.sendWebhook (P:=demo_platform) (first_attempt 2) (http 500))
    (registered ["user.registered"] 2) = false ∧
  timers (after (WebhookPlugin.sendWebhook (P:=demo_platform) (first_attempt 2) (http 500))
            (registered ["user.registered"] 2)) =
  timers (registered ["user.registered"] 2) ++
    [(5000 * 2 ^ (retries (first_attempt 2) + 1 - 1), WebhookPlugin.retried (first_attempt 2))] ∧
  retries (WebhookPlugin.retried (first_attempt 2)) = retries (first_attempt 2) + 1.
Proof.
  assert (Hf : failed (outcome (http 500)) = true) by reflexivity.
  assert (Hr : 0 ≤ retries (first_attempt 2) < wh_retry_count (webhook (first_attempt 2)))
    by (simpl; lia).
  assert (Hth : throws (WebhookPlugin.sendWebhook (P:=demo_platform) (first_attempt 2) (http 500))
                  (registered ["user.registered"] 2) = false) by reflexivity.
  destruct (C6_retry_delay_doubles_and_reenters_at_back (P:=demo_platform)
              (first_attempt 2) (http 500) (registered ["user.registered"] 2) Hf Hr Hth)
    as (_ & Ht & Hk & _).
  exact (conj Hf (conj Hr (conj Hth (conj Ht Hk)))).
Defined.

Lemma C7_wildcard_gets_unlisted_event :
  consistent (registered ["*"] 3) = true ∧
  example_row ["*"] 3 ∈ webhooks (registered ["*"] 3) ∧
  wh_active (example_row ["*"] 3) = true ∧
  wh_events (example_row ["*"] 3) = ["*"] ∧
  length (pending (after (WebhookPlugin.trigger "order.paid" u1) (registered ["*"] 3))) =
  (length (pending (registered ["*"] 3)) +
   length (filter (λ hook, wh_active hook = true ∧
                           ("order.paid" ∈ wh_events hook ∨ "*" ∈ wh_events hook))
             (webhooks (registered ["*"] 3))))%nat ∧
  attempt (clock (registered ["*"] 3)) "order.paid" u1 (example_row ["*"] 3) ∈
    pending (after (WebhookPlugin.trigger "order.paid" u1) (registered ["*"] 3)).
Proof.
  assert (Hc : consistent (registered ["*"] 3) = true) by reflexivity.
  assert (Hin : example_row ["*"] 3 ∈ webhooks (registered ["*"] 3))
    by (vm_compute; apply list_elem_of_here).
  assert (Ha : wh_active (example_row ["*"] 3) = true) by reflexivity.
  assert (He : wh_events (example_row ["*"] 3) = ["*"]) by reflexivity.
  destruct (C7_trigger_fans_out_to_matching_subscriptions "order.paid" u1
              (registered ["*"] 3) Hc) as (_ & Hlen & Hwild).
  exact (conj Hc (conj Hin (conj Ha (conj He
           (conj Hlen (Hwild (example_row ["*"] 3) Hin Ha He)))))).
Defined.



(** * The further theorems at concrete inputs *)

Lemma X1_two_attempts_in_order :
  inflight two_pending = Some (first_attempt 2) ∧
  processing two_pending = true ∧
  write_faults two_pending = [] ∧
  length [http 200; http 500] = S (length (queue two_pending)) ∧
  outbox (WebhookPlugin.run_events (P:=demo_platform)
            (WebhookPlugin.Settle <$> [http 200; http 500]) two_pending) =
  outbox two_pending ++
    (WebhookPlugin.request (P:=demo_platform) <$> first_attempt 2 :: queue two_pending) ∧
  processing (WebhookPlugin.run_events (P:=demo_platform)
                (WebhookPlugin.Settle <$> [http 200; http 500]) two_pending) = false.
Proof.
  assert (Hi : inflight two_pending = Some (first_attempt 2)) by reflexivity.
  assert (Hp : processing two_pending = true) by reflexivity.
  assert (Hf : write_faults two_pending = []) by reflexivity.
  assert (Hl : length [http 200; http 500] = S (length (queue two_pending)))
    by reflexivity.
  destruct (drain_pass_sends_in_queue_order (P:=demo_platform) [http 200; http 500]
              two_pending (first_attempt 2) Hi Hp Hf Hl) as (Ho & _ & Hproc).
  exact (conj Hi (conj Hp (conj Hf (conj Hl (conj Ho Hproc))))).
Defined.

Lemma X2_failing_endpoint_gets_three_requests :
  forallb (λ ev, negb (is_trigger ev)) retry_storm = true ∧
  (length (outbox (WebhookPlugin.run_events (P:=demo_platform) retry_storm
                     (delivery_run 2 []))) +
   budget (WebhookPlugin.run_events (P:=demo_platform) retry_storm (delivery_run 2 []))
   ≤ length (outbox (delivery_run 2 [])) + budget (delivery_run 2 []))%nat.
Proof.
  assert (Hevs : forallb (λ ev, negb (is_trigger ev)) retry_storm = true)
    by reflexivity.
  exact (conj Hevs (queue_sends_are_bounded_by_retry_budget (P:=demo_platform)
                      retry_storm (delivery_run 2 []) Hevs)).
Defined.

Lemma X3_first_retry_of_the_subscription :
  inflight (delivery_run 2 []) = Some (first_attempt 2) ∧
  queue (delivery_run 2 []) = [] ∧ timers (delivery_run 2 []) = [] ∧
  processing (delivery_run 2 []) = true ∧ write_faults (delivery_run 2 []) = [] ∧
  failed (outcome (http 500)) = true ∧
  retries (first_attempt 2) < wh_retry_count (webhook (first_attempt 2)) ∧
  inflight (WebhookPlugin.run_events (P:=demo_platform)
              [WebhookPlugin.Settle (http 500); WebhookPlugin.Fire 0; WebhookPlugin.Tick]
              (delivery_run 2 [])) =
  Some (WebhookPlugin.retried (first_attempt 2)).
Proof.
  assert (Hi : inflight (delivery_run 2 []) = Some (first_attempt 2)) by reflexivity.
  assert (Hq : queue (delivery_run 2 []) = []) by reflexivity.
  assert (Ht : timers (delivery_run 2 []) = []) by reflexivity.
  assert (Hp : processing (delivery_run 2 []) = true) by reflexivity.
  assert (Hf : write_faults (delivery_run 2 []) = []) by reflexivity.
  assert (Hfail : failed (outcome (http 500)) = true) by reflexivity.
  assert (Hlt : retries (first_attempt 2) < wh_retry_count (webhook (first_attempt 2)))
    by reflexivity.
  destruct (failed_attempt_comes_back_with_next_counter (P:=demo_platform)
              (first_attempt 2) (http 500) (delivery_run 2 []) Hi Hq Ht Hp Hf Hfail Hlt)
    as (_ & _ & _ & Hin & _).
  exact (conj Hi (conj Hq (conj Ht (conj Hp (conj Hf (conj Hfail (conj Hlt Hin))))))).
Defined.

Lemma X4_delivered_event_is_sent_again :
  outcome (http 200) = Responded 200 "body" ∧
  response_ok 200 = true ∧
  write_faults (refusing "database is locked" (registered ["user.registered"] 2)) =
    [Some "database is locked"] ∧
  accepts 1 (set_write_faults []
               (refusing "database is locked" (registered ["user.registered"] 2))) = true ∧
  retries (first_attempt 2) < wh_retry_count (webhook (first_attempt 2)) ∧
  throws (WebhookPlugin.sendWebhook (P:=demo_platform) (first_attempt 2) (http 200))
    (refusing "database is locked" (registered ["user.registered"] 2)) = false ∧
  timers (after (WebhookPlugin.sendWebhook (P:=demo_platform) (first_attempt 2) (http 200))
            (refusing "database is locked" (registered ["user.registered"] 2))) =
  timers (refusing "database is locked" (registered ["user.registered"] 2)) ++
    [(WebhookPlugin.retryDelay * 2 ^ retries (first_attempt 2),
      WebhookPlugin.retried (first_attempt 2))].
Proof.
  assert (Ho : outcome (http 200) = Responded 200 "body") by reflexivity.
  assert (Hok : response_ok 200 = true) by reflexivity.
  assert (Hf : write_faults (refusing "database is locked"
                               (registered ["user.registered"] 2)) =
               [Some "database is locked"]) by reflexivity.
  assert (Ha : accepts 1 (set_write_faults []
                 (refusing "database is locked" (registered ["user.registered"] 2)))
               = true) by reflexivity.
  assert (Hlt : retries (first_attempt 2) < wh_retry_count (webhook (first_attempt 2)))
    by reflexivity.
  destruct (refused_success_record_makes_delivery_a_failure (P:=demo_platform)
              (first_attempt 2) (http 200)
              (refusing "database is locked" (registered ["user.registered"] 2))
              200 "body" "database is locked" [] Ho Hok Hf Ha) as (Hth & _ & Hretry).
  exact (conj Ho (conj Hok (conj Hf (conj Ha (conj Hlt (conj Hth (Hretry Hlt))))))).
Defined.

Lemma X5_authorization_header_passes_through :
  "Authorization" ≠ "X-Event-Type" ∧ "Authorization" ≠ "X-Webhook-Signature" ∧
  "Authorization" ≠ "Content-Type" ∧
  req_headers (WebhookPlugin.request (P:=demo_platform) signed_attempt) !! "Authorization" =
  wh_headers (webhook signed_attempt) !! "Authorization".
Proof.
  assert (H1 : "Authorization" ≠ "X-Event-Type") by discriminate.
  assert (H2 : "Authorization" ≠ "X-Webhook-Signature") by discriminate.
  assert (H3 : "Authorization" ≠ "Content-Type") by discriminate.
  destruct (request_headers_fixed_default_and_passed (P:=demo_platform) signed_attempt)
    as (_ & _ & Hpass).
  exact (conj H1 (conj H2 (conj H3 (Hpass "Authorization" H1 H2 H3)))).
Defined.

Lemma X6_subscription_without_secret :
  (wh_secret (webhook (first_attempt 2)) = None ∨
   wh_secret (webhook (first_attempt 2)) = Some "") ∧
  req_headers (WebhookPlugin.request (P:=demo_platform) (first_attempt 2))
    !! "X-Webhook-Signature" =
  wh_headers (webhook (first_attempt 2)) !! "X-Webhook-Signature".
Proof.
  assert (Hs : wh_secret (webhook (first_attempt 2)) = None ∨
               wh_secret (webhook (first_attempt 2)) = Some "") by (left; reflexivity).
  exact (conj Hs (unsigned_request_keeps_configured_signature_header
                    (P:=demo_platform) (first_attempt 2) Hs)).
Defined.

Lemma X9_uuid_of_constant_draws :
  (∀ n, (sevens n < 16)%N) ∧
  String.length (generateUUID_of_draws sevens) = 36%nat ∧
  String.get 14 (generateUUID_of_draws sevens) = Some "4"%char.
Proof.
  assert (Hd : ∀ n, (sevens n < 16)%N) by (intros n; reflexivity).
  destruct (generateUUID_is_version_4_layout sevens Hd) as (Hl & _ & Hv & _).
  exact (conj Hd (conj Hl Hv)).
Defined.

Lemma X10_first_registration :
  accepts 1 empty_world = true ∧
  (WebhookPlugin.register (P:=demo_platform) (example_hook ["*"] 3) empty_world).1 =
  Return (random_uuid (Platform:=demo_platform) (uuids_drawn empty_world)).
Proof.
  assert (Ha : accepts 1 empty_world = true) by reflexivity.
  destruct (register_stores_subscription_with_defaults (P:=demo_platform)
              (example_hook ["*"] 3) empty_world Ha) as (Hid & _).
  exact (conj Ha Hid).
Defined.


Lemma X12_deleted_wildcard_subscription :
  accepts 1 (registered ["*"] 3) = true ∧
  consistent (registered ["*"] 3) = true ∧
  pending (after (WebhookPlugin.trigger "order.paid" u1)
             (after (WebhookPlugin.delete "uuid-0") (registered ["*"] 3))) =
  pending (registered ["*"] 3) ++
    (attempt (clock (registered ["*"] 3)) "order.paid" u1 <$>
       filter (λ hook, (wh_active hook = true ∧
                        ("order.paid" ∈ wh_events hook ∨ "*" ∈ wh_events hook)) ∧
                       wh_id hook ≠ "uuid-0")
         (webhooks (registered ["*"] 3))).
Proof.
  assert (Ha : accepts 1 (registered ["*"] 3) = true) by reflexivity.
  assert (Hc : consistent (registered ["*"] 3) = true) by reflexivity.
  destruct (deleted_subscription_gets_no_new_attempts "uuid-0" (registered ["*"] 3)
              "order.paid" u1 Ha Hc) as (_ & _ & Hp).
  exact (conj Ha (conj Hc Hp)).
Defined.

Lemma X13_test_after_delete :
  accepts 1 (registered ["user.registered"] 3) = true ∧
  head (filter (λ h, wh_id h = "uuid-0") (webhooks (registered ["user.registered"] 3))) =
    Some (example_row ["user.registered"] 3) ∧
  ∃ request,
    outbox (after (WebhookPlugin.test (P:=demo_platform) "uuid-0" JNull (http 200))
              (after (WebhookPlugin.delete "uuid-0") (registered ["user.registered"] 3))) =
    outbox (registered ["user.registered"] 3) ++ [request] ∧
    req_url request = wh_url (example_row ["user.registered"] 3) ∧
    req_headers request !! "X-Event-Type" = Some "test".
Proof.
  assert (Ha : accepts 1 (registered ["user.registered"] 3) = true) by reflexivity.
  assert (Hh : head (filter (λ h, wh_id h = "uuid-0")
                       (webhooks (registered ["user.registered"] 3))) =
               Some (example_row ["user.registered"] 3)) by reflexivity.
  exact (conj Ha (conj Hh
           (test_still_reaches_deleted_subscription (P:=demo_platform) "uuid-0" JNull
              (http 200) (registered ["user.registered"] 3)
              (example_row ["user.registered"] 3) Ha Hh))).
Defined.

Lemma X14_test_of_unknown_identifier :
  filter (λ h, wh_id h = "uuid-7") (webhooks (registered ["user.registered"] 3)) = [] ∧
  (WebhookPlugin.test (P:=demo_platform) "uuid-7" JNull (http 200)
     (registered ["user.registered"] 3)).1 = Throw "Webhook not found" ∧
  outbox (after (WebhookPlugin.test (P:=demo_platform) "uuid-7" JNull (http 200))
            (registered ["user.registered"] 3)) =
  outbox (registered ["user.registered"] 3).
Proof.
  assert (Hf : filter (λ h, wh_id h = "uuid-7")
                 (webhooks (registered ["user.registered"] 3)) = []) by reflexivity.
  destruct (test_unknown_subscription_throws_before_send (P:=demo_platform) "uuid-7"
              JNull (http 200) (registered ["user.registered"] 3) Hf) as (Hth & Ho & _).
  exact (conj Hf (conj Hth Ho)).
Defined.

Lemma X15_trigger_of_unsubscribed_event :
  filter (λ hook, wh_active hook = true ∧
                  ("order.paid" ∈ wh_events hook ∨ "*" ∈ wh_events hook))
    (webhooks after_failure) = [] ∧
  queue (after (WebhookPlugin.trigger "order.paid" u1) after_failure) = queue after_failure ∧
  processing (after (WebhookPlugin.trigger "order.paid" u1) after_failure) =
  processing after_failure.
Proof.
  assert (Hm : filter (λ hook, wh_active hook = true ∧
                               ("order.paid" ∈ wh_events hook ∨ "*" ∈ wh_events hook))
                 (webhooks after_failure) = []) by reflexivity.
  destruct (trigger_without_match_leaves_queue_alone "order.paid" u1 after_failure Hm)
    as (Hq & _ & Hp & _).
  exact (conj Hm (conj Hq Hp)).
Defined.

Lemma X17_redelivery_of_the_stored_failure :
  head (filter (λ row, DatabaseService.has_id "uuid-1" row = true)
          (webhook_deliveries after_failure)) = Some stored_failure ∧
  webhook_id stored_failure = SqlText "uuid-0" ∧
  head (filter (λ h, wh_id h = "uuid-0") (webhooks after_failure)) =
    Some (example_row ["user.registered"] 2) ∧
  WebhookPlugin.attempt_of_delivery (example_row ["user.registered"] 2) stored_failure =
    Some redelivered ∧
  failed (outcome (http 500)) = true ∧
  retries redelivered < wh_retry_count (example_row ["user.registered"] 2) ∧
  throws (WebhookPlugin.retryDelivery (P:=demo_platform) "uuid-1" (http 500))
    after_failure = false ∧
  outbox (after (WebhookPlugin.retryDelivery (P:=demo_platform) "uuid-1" (http 500))
            after_failure) =
  outbox after_failure ++ [WebhookPlugin.request (P:=demo_platform) redelivered] ∧
  timers (after (WebhookPlugin.retryDelivery (P:=demo_platform) "uuid-1" (http 500))
            after_failure) =
  timers after_failure ++
    [(WebhookPlugin.retryDelay * 2 ^ retries redelivered, WebhookPlugin.retried redelivered)].
Proof.
  assert (Hd : head (filter (λ row, DatabaseService.has_id "uuid-1" row = true)
                       (webhook_deliveries after_failure)) = Some stored_failure)
    by reflexivity.
  assert (Hid : webhook_id stored_failure = SqlText "uuid-0") by reflexivity.
  assert (Hh : head (filter (λ h, wh_id h = "uuid-0") (webhooks after_failure)) =
               Some (example_row ["user.registered"] 2)) by reflexivity.
  assert (Hitem : WebhookPlugin.attempt_of_delivery (example_row ["user.registered"] 2)
                    stored_failure = Some redelivered) by reflexivity.
  assert (Hf : failed (outcome (http 500)) = true) by reflexivity.
  assert (Hlt : retries redelivered < wh_retry_count (example_row ["user.registered"] 2))
    by reflexivity.
  assert (Hth : throws (WebhookPlugin.retryDelivery (P:=demo_platform) "uuid-1" (http 500))
                  after_failure = false) by reflexivity.
  destruct (redelivery_appends_records_and_continues_the_counter (P:=demo_platform)
              "uuid-1" (http 500) after_failure stored_failure "uuid-0"
              (example_row ["user.registered"] 2) redelivered Hd Hid Hh Hitem)
    as (_ & Ho & _ & _ & Hretry).
  exact (conj Hd (conj Hid (conj Hh (conj Hitem (conj Hf (conj Hlt (conj Hth
           (conj Ho (Hretry Hf Hlt Hth))))))))).
Defined.

Lemma X18_redelivery_without_record_or_subscription :
  filter (λ row, DatabaseService.has_id "uuid-7" row = true)
    (webhook_deliveries after_failure) = [] ∧
  head (filter (λ row, DatabaseService.has_id "uuid-1" row = true)
          (webhook_deliveries orphaned)) = Some stored_failure ∧
  webhook_id stored_failure = SqlText "uuid-0" ∧
  filter (λ h, wh_id h = "uuid-0") (webhooks orphaned) = [] ∧
  (WebhookPlugin.retryDelivery (P:=demo_platform) "uuid-7" (http 200) after_failure).1 =
    Throw "Delivery not found" ∧
  (WebhookPlugin.retryDelivery (P:=demo_platform) "uuid-1" (http 200) orphaned).1 =
    Throw "Webhook not found".
Proof.
  assert (Hd : filter (λ row, DatabaseService.has_id "uuid-7" row = true)
                 (webhook_deliveries after_failure) = []) by reflexivity.
  assert (Hd' : head (filter (λ row, DatabaseService.has_id "uuid-1" row = true)
                        (webhook_deliveries orphaned)) = Some stored_failure)
    by reflexivity.
  assert (Hid : webhook_id stored_failure = SqlText "uuid-0") by reflexivity.
  assert (Hh : filter (λ h, wh_id h = "uuid-0") (webhooks orphaned) = []) by reflexivity.
  destruct (redelivery_of_unknown_record_or_subscription_throws (P:=demo_platform)
              "uuid-7" (http 200) after_failure) as (Hnone & _).
  destruct (Hnone Hd) as (Hth & _).
  destruct (redelivery_of_unknown_record_or_subscription_throws (P:=demo_platform)
              "uuid-1" (http 200) orphaned) as (_ & Hgone).
  destruct (Hgone stored_failure "uuid-0" Hd' Hid Hh) as (Hth' & _).
  exact (conj Hd (conj Hd' (conj Hid (conj Hh (conj Hth Hth'))))).
Defined.

Lemma X19_update_of_url_and_headers :
  Forall (λ kv, count_char "?" kv.1 = 0%nat) careless_update ∧
  ∃ keys params,
    last (sql_trace (after (WebhookPlugin.update "uuid-0" careless_update)
                       (registered ["user.registered"] 3))) =
      Some ("UPDATE webhooks SET " +:+ WebhookPlugin.setClause keys +:+ " WHERE id = ?",
            params) ∧
    count_char "?"
      ("UPDATE webhooks SET " +:+ WebhookPlugin.setClause keys +:+ " WHERE id = ?") =
    length params.
Proof.
  assert (Hq : Forall (λ kv, count_char "?" kv.1 = 0%nat) careless_update)
    by (repeat constructor).
  destruct (update_binds_one_value_per_placeholder "uuid-0" careless_update
              (registered ["user.registered"] 3))
    as (keys & params & Hlast & _ & _ & _ & _ & _ & Hcount).
  split; [exact Hq|]. exists keys, params. exact (conj Hlast (Hcount Hq)).
Defined.

Lemma X20_update_of_the_identifier_alone :
  Forall (λ kv, kv.1 ∈ ["id"; "create_date"])
    [("id", WebhookPlugin.JsPrimitive (SqlText "uuid-9"))] ∧
  last (sql_trace
          (after (WebhookPlugin.update "uuid-0"
                    [("id", WebhookPlugin.JsPrimitive (SqlText "uuid-9"))])
             (registered ["user.registered"] 3))) =
  Some ("UPDATE webhooks SET  WHERE id = ?", [SqlText "uuid-0"]).
Proof.
  assert (Hall : Forall (λ kv, kv.1 ∈ ["id"; "create_date"])
                   [("id", WebhookPlugin.JsPrimitive (SqlText "uuid-9"))]).
  { constructor; [apply list_elem_of_here | constructor]. }
  exact (conj Hall (update_without_columns_sends_empty_set_clause "uuid-0"
                      [("id", WebhookPlugin.JsPrimitive (SqlText "uuid-9"))]
                      (registered ["user.registered"] 3) Hall)).
Defined.

Lemma X21_timer_callback_moves_the_retry :
  consistent after_failure = true ∧
  lineages (WebhookPlugin.step (P:=demo_platform) after_failure (WebhookPlugin.Fire 0))
    ≡ₚ lineages after_failure.
Proof.
  assert (Hc : consistent after_failure = true) by reflexivity.
  exact (conj Hc (attempts_only_move_between_timers_queue_and_loop (P:=demo_platform)
                    after_failure (WebhookPlugin.Fire 0) Hc I)).
Defined.

Lemma X22_listing_after_delete :
  accepts 1 (registered ["*"] 3) = true ∧
  (WebhookPlugin.getAll (after (WebhookPlugin.delete "uuid-0") (registered ["*"] 3))).1 =
  Return (filter (λ hook, wh_active hook = true ∧ wh_id hook ≠ "uuid-0")
            (webhooks (registered ["*"] 3))).
Proof.
  assert (Ha : accepts 1 (registered ["*"] 3) = true) by reflexivity.
  destruct (getAll_lists_active_subscriptions_except_deleted "uuid-0" (registered ["*"] 3))
    as (_ & Hdel).
  exact (conj Ha (Hdel Ha)).
Defined.
